(** * RAG resume analyzer: document service, chat service and the /chat route

    A shallow embedding of [services/document_service.py],
    [services/chat_service.py] and the [chat] view of [app.py].

    The code is a thin orchestration layer over external collaborators (the
    file system, the document loaders, the text splitter, the Embedding
    Provider, the Pinecone Vector Index and the Language Model Provider).
    The collaborators that hold state the code changes (the Pinecone control
    plane) are modelled as part of an explicit [World]; the others are the
    fields of an environment record [Env].  Every external call is recorded
    in the world's [log], so that statements such as "no network call is
    made" or "the provider is invoked once" can be read off the log. *)

From Stdlib Require Import ZArith NArith QArith Ascii String DecimalString Sorted.
From stdpp Require Import base option list gmap.

Close Scope Q_scope.

(** ** Python values *)

(** A Python [str] is a sequence of Unicode code points; [len] and slicing
    count code points, so a [str] is a list of code points here. *)
Abbreviation pystr := (list N).

(** A literal of the source, given by its ASCII text. *)
Definition lit (s : string) : pystr := map N_of_ascii (list_ascii_of_string s).

(** The line feed of the source's ["\n"]. *)
Definition NL : pystr := [10%N].

(** [str(n)] for a non-negative integer. *)
Definition str_of_nat (n : nat) : pystr := lit (NilEmpty.string_of_uint (Nat.to_uint n)).

(** [sep.join(xs)]: the first item, then for each further item the separator
    and the item, accumulated from the left. *)
Definition py_join (sep : pystr) (xs : list pystr) : pystr :=
  match xs with
  | [] => []
  | x :: rest => fold_left (λ acc y, acc ++ sep ++ y) rest x
  end.

(** [str.isspace] on one code point: the code points Python treats as
    white space. *)
Definition is_space (c : N) : bool :=
  ((9 <=? c) && (c <=? 13) || (28 <=? c) && (c <=? 32) || (c =? 133) || (c =? 160)
   || (c =? 5760) || (8192 <=? c) && (c <=? 8202) || (c =? 8232) || (c =? 8233)
   || (c =? 8239) || (c =? 8287) || (c =? 12288))%N.

Fixpoint lstrip (s : pystr) : pystr :=
  match s with
  | c :: s' => if is_space c then lstrip s' else s
  | [] => []
  end.

(** [s.strip()]. *)
Definition strip (s : pystr) : pystr := reverse (lstrip (reverse (lstrip s))).

(** An exception: its class and [str(e)]. *)
Record Exc := mkExc { exc_class : pystr; exc_msg : pystr }.

Definition ValueError (msg : pystr) : Exc := mkExc (lit "ValueError") msg.
(** [str(KeyError(k))] is the [repr] of the key. *)
Definition KeyError (key : pystr) : Exc := mkExc (lit "KeyError") (lit "'" ++ key ++ lit "'").
Definition AttributeError (msg : pystr) : Exc := mkExc (lit "AttributeError") msg.
(** Errors of the Pinecone service, by HTTP status. *)
Definition NotFoundException (name : pystr) : Exc :=
  mkExc (lit "NotFoundException") (lit "(404) Resource " ++ name ++ lit " not found").
Definition ConflictException (name : pystr) : Exc :=
  mkExc (lit "PineconeApiException") (lit "(409) Resource " ++ name ++ lit " already exists").
Definition BadRequestException (msg : pystr) : Exc :=
  mkExc (lit "PineconeApiException") (lit "(400) " ++ msg).

(** ** Data model *)

Inductive MetaValue := MStr (s : pystr) | MInt (z : Z).

(** A langchain [Document]: text and a metadata dict (source path, page). *)
Record Document := mkDocument {
  page_content : pystr;
  doc_metadata : gmap pystr MetaValue }.

(** An Index Record: the vector and the chunk it embeds. Similarity scores and
    vector components are floats in the source; they are rationals here, which
    keeps their order and leaves rounding out. *)
Record IndexRecord := mkIndexRecord {
  rec_values : list Q;
  rec_doc : Document }.

(** What [describe_index] reports, and the records stored under the name. *)
Record IndexInfo := mkIndexInfo {
  dimension : Z;
  metric : pystr;
  records : list IndexRecord }.

Inductive LoaderKind := TextLoader | PyPDFLoader | Docx2txtLoader.
Inductive LogLevel := INFO | WARNING | ERROR.

(** The calls that leave the process, and the log records. *)
Inductive Event :=
  | EvListIndexes
  | EvDescribeIndex (name : pystr)
  | EvCreateIndex (name : pystr) (dim : Z) (metric : pystr)
  | EvDeleteIndex (name : pystr)
  | EvDeleteAll (name : pystr)
  | EvSleep (seconds : Z)
  | EvEmbed (texts : list pystr)
  | EvUpsert (name : pystr) (n : nat)
  | EvSearch (name : pystr) (query : pystr) (k : nat)
  | EvLLM (prompt : pystr)
  | EvGlob (pattern : pystr)
  | EvFileLoad (kind : LoaderKind) (path : pystr)
  | EvLog (level : LogLevel) (msg : pystr).

(** The state outside the process that the code reads and changes: the
    Pinecone project's indexes by name, and the record of external calls. *)
Record World := mkWorld {
  pinecone : gmap pystr IndexInfo;
  log : list Event }.

(** ** Effects: state and exceptions *)

Inductive result (A : Type) : Type :=
  | Ok (a : A)
  | Raise (e : Exc).
Arguments Ok {A} a.
Arguments Raise {A} e.

(** A computation runs on a world, returns or raises, and leaves a world;
    what it did before raising stays done. *)
Definition M (A : Type) : Type := World → result A * World.

#[global] Instance M_ret : MRet M := λ A a w, (Ok a, w).
#[global] Instance M_bind : MBind M := λ A B f m w,
  match m w with
  | (Ok a, w') => f a w'
  | (Raise e, w') => (Raise e, w')
  end.

Definition raise {A} (e : Exc) : M A := λ w, (Raise e, w).

(** [try: m except Exception as e: h e]. *)
Definition try_except {A} (m : M A) (h : Exc → M A) : M A := λ w,
  match m w with
  | (Ok a, w') => (Ok a, w')
  | (Raise e, w') => h e w'
  end.

Definition emit (ev : Event) : M unit := λ w,
  (Ok tt, mkWorld (pinecone w) (log w ++ [ev])).

Definition get_indexes : M (gmap pystr IndexInfo) := λ w, (Ok (pinecone w), w).
Definition put_indexes (idx : gmap pystr IndexInfo) : M unit := λ w,
  (Ok tt, mkWorld idx (log w)).

(** The number of external calls and log records so far: the time of the
    next call. *)
Definition now : M nat := λ w, (Ok (length (log w)), w).

Definition logger (level : LogLevel) (msg : pystr) : M unit := emit (EvLog level msg).
Definition sleep (seconds : Z) : M unit := emit (EvSleep seconds).

(** ** The Vector Index service *)

(** Modelled from the spec: the Pinecone client is not part of the
    repository.  Its control plane follows the interface of the spec's
    section 6 ([create(name, dimension, metric)], [delete_index(name)],
    [describe(name)]): an index is created empty, creating a name twice and
    deleting or describing an absent name are refused by the service, and a
    call takes effect before it returns (provisioning delays are outside the
    model; the code's sleeps are recorded in the log). *)
Definition pc_list_indexes : M (list pystr) :=
  emit EvListIndexes;;
  idx ← get_indexes;
  mret (map fst (map_to_list idx)).

Definition pc_create_index (name : pystr) (dim : Z) (metric : pystr) : M unit :=
  emit (EvCreateIndex name dim metric);;
  idx ← get_indexes;
  match idx !! name with
  | Some _ => raise (ConflictException name)
  | None => put_indexes (<[name := mkIndexInfo dim metric []]> idx)
  end.

Definition pc_describe_index (name : pystr) : M IndexInfo :=
  emit (EvDescribeIndex name);;
  idx ← get_indexes;
  match idx !! name with
  | Some info => mret info
  | None => raise (NotFoundException name)
  end.

Definition pc_delete_index (name : pystr) : M unit :=
  emit (EvDeleteIndex name);;
  idx ← get_indexes;
  match idx !! name with
  | Some _ => put_indexes (delete name idx)
  | None => raise (NotFoundException name)
  end.

(** The output dimension of the Embedding Provider of the deployment
    ([OpenAIEmbeddings] with its default model). *)
Definition embedding_dimension : Z := 1536.

(** [_ensure_index_exists(pc, index_name)]; [pc] is the world's service.
    The [spec=] argument of [create_index] (serverless, aws, us-east-1) is a
    constant and is left out of the event. *)
Definition _ensure_index_exists (index_name : pystr) : M unit :=
  existing_indexes ← pc_list_indexes;
  if negb (bool_decide (index_name ∈ existing_indexes)) then
    pc_create_index index_name 1536 (lit "cosine");;
    sleep 10
  else
    index_info ← pc_describe_index index_name;
    if bool_decide (dimension index_info ≠ 1536%Z) then
      pc_delete_index index_name;;
      sleep 5;;
      pc_create_index index_name 1536 (lit "cosine");;
      sleep 10
    else mret tt.

(** Modelled from the spec: the data plane of the service, [upsert(records)]
    and [delete_all(name)] of the spec's section 6.  Both need the index to
    exist, and the service refuses a vector whose length is not the
    dimension of the index. *)
Definition pc_upsert (name : pystr) (recs : list IndexRecord) : M unit :=
  emit (EvUpsert name (length recs));;
  idx ← get_indexes;
  match idx !! name with
  | None => raise (NotFoundException name)
  | Some info =>
      if forallb (λ r, Z.of_nat (length (rec_values r)) =? dimension info)%Z recs then
        put_indexes (<[name := mkIndexInfo (dimension info) (metric info) (records info ++ recs)]> idx)
      else raise (BadRequestException (lit "Vector dimension does not match the dimension of the index"))
  end.

Definition pc_delete_all (name : pystr) : M unit :=
  emit (EvDeleteAll name);;
  idx ← get_indexes;
  match idx !! name with
  | None => raise (NotFoundException name)
  | Some info => put_indexes (<[name := mkIndexInfo (dimension info) (metric info) []]> idx)
  end.

(** ** Paths *)

(** [s.rfind(c)] for a one-character [c]: the last index of [c], or -1. *)
Fixpoint rfind_from (c : N) (s : pystr) (i acc : Z) : Z :=
  match s with
  | [] => acc
  | x :: s' => rfind_from c s' (i + 1)%Z (if (x =? c)%N then i else acc)
  end.
Definition rfind (c : N) (s : pystr) : Z := rfind_from c s 0%Z (-1)%Z.

Definition slash : N := 47%N.
Definition dot : N := 46%N.

(** [os.path.splitext(p)] (POSIX): the extension starts at the last dot of
    the last path component, unless that component has only dots before it. *)
Definition splitext (p : pystr) : pystr * pystr :=
  let sepIndex := rfind slash p in
  let dotIndex := rfind dot p in
  if (sepIndex <? dotIndex)%Z
       && existsb (λ c, negb (c =? dot)%N)
            (take (Z.to_nat dotIndex - Z.to_nat (sepIndex + 1)) (drop (Z.to_nat (sepIndex + 1)) p))
  then (take (Z.to_nat dotIndex) p, drop (Z.to_nat dotIndex) p)
  else (p, []).

(** [os.path.join(a, *p)] (POSIX). *)
Definition os_path_join (a : pystr) (p : list pystr) : pystr :=
  fold_left (λ path b,
    if bool_decide (take 1 b = [slash]) then b
    else if bool_decide (path = []) || bool_decide (last path = Some slash) then path ++ b
    else path ++ [slash] ++ b) p a.

(** ** The environment *)

(** A handle on a named index ([PineconeVectorStore]). *)
Record VectorStore := mkVectorStore { vs_index_name : pystr }.

(** The collaborators the code calls and does not change.  Only their results
    matter to the code; a call that fails returns [Raise].
    - [environ]: [os.environ];
    - [isfile], [isdir], [glob_glob]: [os.path.isfile], [os.path.isdir] and
      [glob.glob(pattern, recursive=True)];
    - [loader_load kind path]: the [load()] of the langchain loader;
    - [str_lower]: Python's [str.lower];
    - [split_documents]: [RecursiveCharacterTextSplitter(chunk_size=1000,
      chunk_overlap=200).split_documents];
    - [embed_documents]: the Embedding Provider on a batch of texts;
    - [similarity_search_with_score t info query k]: the similarity search of
      the index (the embedding of the query and the index's native query), as
      it answers at time [t] on the index contents [info];
    - [llm_invoke prompt]: the Language Model Provider, giving the [content]
      of its message;
    - [markdown]: [markdown.markdown]. *)
Record Env := mkEnv {
  environ : gmap pystr pystr;
  isfile : pystr → bool;
  isdir : pystr → bool;
  glob_glob : pystr → list pystr;
  loader_load : LoaderKind → pystr → result (list Document);
  str_lower : pystr → pystr;
  split_documents : list Document → list Document;
  embed_documents : list pystr → result (list (list Q));
  similarity_search_with_score : nat → IndexInfo → pystr → nat → result (list (Document * Q));
  llm_invoke : pystr → result pystr;
  markdown : pystr → pystr }.

(** The answer of the query operation. *)
Record Source := mkSource {
  content : pystr;
  metadata : gmap pystr MetaValue }.

Record ChatResult := mkChatResult {
  answer : pystr;
  sources : list Source }.

(** The [/chat] request body and response. *)
Inductive JsonValue :=
  | JString (s : pystr)
  | JOther (type_name : pystr).

(** [request.json]: a JSON object, or the exception raised on reading it. *)
Inductive RequestJson :=
  | JsonObject (fields : gmap pystr JsonValue)
  | JsonFailure (e : Exc).

Inductive ResponseBody :=
  | ErrorJson (error : pystr)
  | ChatJson (response : ChatResult).

(** The HR analysis prompt: [HR_PROMPT.format(context=..., question=...)]. *)
Definition unlines (ls : list pystr) : pystr := py_join NL ls.

Definition HR_PROMPT (context question : pystr) : pystr :=
  unlines [
    lit "You are an expert HR analyst. Analyze the following question using the provided context.";
    [];
    lit "Context: " ++ context;
    [];
    lit "Question: " ++ question;
    [];
    lit "Format your response in markdown with:";
    lit "## Summary";
    lit "[Executive summary]";
    [];
    lit "## Key Insights";
    lit "- [Key finding 1]";
    lit "- [Key finding 2]";
    [];
    lit "## Recommendations";
    lit "1. [Recommendation 1]";
    lit "2. [Recommendation 2]";
    [];
    lit "## Skills Assessment";
    lit "[Skills alignment if relevant]";
    [];
    lit "Focus on HR factors like skills, experience, qualifications, and cultural fit.";
    [] ].

(** [_format_docs(docs)]. *)
Definition _format_docs (docs : list Document) : pystr :=
  py_join (NL ++ NL) (map page_content docs).

(** One entry of [sources]:
    [doc.page_content[:200] + "..." if len(doc.page_content) > 200 else doc.page_content]. *)
Definition source_of (doc : Document) : Source :=
  mkSource
    (if (200 <? length (page_content doc))%nat
     then take 200 (page_content doc) ++ lit "..."
     else page_content doc)
    (doc_metadata doc).

Definition lift {A} (r : result A) : M A := λ w, (r, w).

Section Services.
Context (E : Env).

(** [os.environ[key]]. *)
Definition environ_get (key : pystr) : M pystr :=
  match environ E !! key with
  | Some v => mret v
  | None => raise (KeyError key)
  end.

(** *** document_service.py *)

(** The [loaders] dict of [_load_single_file], by extension. *)
Definition loaders (ext : pystr) : option LoaderKind :=
  if bool_decide (ext = lit ".txt") then Some TextLoader
  else if bool_decide (ext = lit ".pdf") then Some PyPDFLoader
  else if bool_decide (ext = lit ".docx") then Some Docx2txtLoader
  else None.

Definition loader_run (kind : LoaderKind) (file_path : pystr) : M (list Document) :=
  emit (EvFileLoad kind file_path);;
  lift (loader_load E kind file_path).

Definition _load_single_file (file_path : pystr) : M (list Document) :=
  try_except
    (let ext := str_lower E (splitext file_path).2 in
     match loaders ext with
     | None =>
         logger WARNING (lit "Unsupported file type: " ++ ext);;
         mret []
     | Some kind =>
         documents ← loader_run kind file_path;
         logger INFO (lit "Loaded " ++ str_of_nat (length documents)
                        ++ lit " documents from " ++ file_path);;
         mret documents
     end)
    (λ e,
       logger ERROR (lit "Error loading " ++ file_path ++ lit ": " ++ exc_msg e);;
       mret []).

(** [for file in files: documents.extend(_load_single_file(file))]. *)
Fixpoint extend_from_files (files : list pystr) (documents : list Document)
    : M (list Document) :=
  match files with
  | [] => mret documents
  | file :: rest =>
      loaded ← _load_single_file file;
      extend_from_files rest (documents ++ loaded)
  end.

(** [for ext in [...]: files = glob.glob(...); for file in files: ...]. *)
Fixpoint extend_from_patterns (path : pystr) (exts : list pystr)
    (documents : list Document) : M (list Document) :=
  match exts with
  | [] => mret documents
  | ext :: rest =>
      let pattern := os_path_join path [lit "**"; ext] in
      emit (EvGlob pattern);;
      documents' ← extend_from_files (glob_glob E pattern) documents;
      extend_from_patterns path rest documents'
  end.

Definition load_documents (path : pystr) : M (list Document) :=
  let documents := [] in
  if isfile E path then
    loaded ← _load_single_file path;
    mret (documents ++ loaded)
  else if isdir E path then
    extend_from_patterns path [lit "*.txt"; lit "*.pdf"; lit "*.docx"] documents
  else mret documents.

(** Modelled from the spec: [PineconeVectorStore.from_documents] is library
    code; it is the spec's [upsert(chunks)]: the texts are embedded by the
    Embedding Provider and all records are written to the index. *)
Definition from_documents (chunks : list Document) (index_name : pystr) : M VectorStore :=
  let texts := map page_content chunks in
  emit (EvEmbed texts);;
  vectors ← lift (embed_documents E texts);
  pc_upsert index_name (zip_with mkIndexRecord vectors chunks);;
  mret (mkVectorStore index_name).

(** [create_vector_store(documents)]; [None] is Python's [None]. *)
Definition create_vector_store (documents : list Document) : M (option VectorStore) :=
  match documents with
  | [] => mret None
  | _ =>
    try_except
      (let chunks := split_documents E documents in
       _ ← environ_get (lit "PINECONE_API_KEY");
       index_name ← environ_get (lit "INDEX_NAME");
       _ensure_index_exists index_name;;
       vectorstore ← from_documents chunks index_name;
       logger INFO (lit "Created vector store with " ++ str_of_nat (length chunks)
                      ++ lit " chunks");;
       mret (Some vectorstore))
      (λ e,
         logger ERROR (lit "Error creating vector store: " ++ exc_msg e);;
         mret None)
  end.

(** Modelled from the spec: the constructor [PineconeVectorStore(index_name=
    ..., embedding=...)] is library code; it is the spec's [open()], which
    returns a handle to the existing index and fails if the index does not
    exist. *)
Definition vectorstore_open (index_name : pystr) : M VectorStore :=
  pc_describe_index index_name;;
  mret (mkVectorStore index_name).

Definition get_vector_store : M (option VectorStore) :=
  try_except
    (index_name ← environ_get (lit "INDEX_NAME");
     vectorstore ← vectorstore_open index_name;
     mret (Some vectorstore))
    (λ e,
       logger ERROR (lit "Error getting vector store: " ++ exc_msg e);;
       mret None).

Definition delete_all_documents : M bool :=
  try_except
    (_ ← environ_get (lit "PINECONE_API_KEY");
     index_name ← environ_get (lit "INDEX_NAME");
     pc_delete_all index_name;;
     mret true)
    (λ e,
       logger ERROR (lit "Error deleting documents: " ++ exc_msg e);;
       mret false).

(** *** chat_service.py *)

(** [vectorstore.as_retriever(search_kwargs={"k": k})]. *)
Record Retriever := mkRetriever { retr_store : VectorStore; retr_k : nat }.
Definition as_retriever (vectorstore : VectorStore) (k : nat) : Retriever :=
  mkRetriever vectorstore k.

(** The similarity search behind the retriever, with its scores: one call,
    answered on the index contents of the moment. *)
Definition retriever_search (retriever : Retriever) (query : pystr)
    : M (list (Document * Q)) :=
  let name := vs_index_name (retr_store retriever) in
  t ← now;
  emit (EvSearch name query (retr_k retriever));;
  idx ← get_indexes;
  match idx !! name with
  | None => raise (NotFoundException name)
  | Some info => lift (similarity_search_with_score E t info query (retr_k retriever))
  end.

(** [retriever.invoke(query)]: the documents of the search, in its order. *)
Definition retriever_invoke (retriever : Retriever) (query : pystr) : M (list Document) :=
  docs_and_scores ← retriever_search retriever query;
  mret (map fst docs_and_scores).

(** [retriever.get_relevant_documents(query)] is [invoke]. *)
Definition get_relevant_documents (retriever : Retriever) (query : pystr)
    : M (list Document) :=
  retriever_invoke retriever query.

Definition llm_call (prompt : pystr) : M pystr :=
  emit (EvLLM prompt);;
  lift (llm_invoke E prompt).

(** [process_chat_question(question, vectorstore)].  [chain.invoke] runs the
    retriever, formats the documents, fills the prompt and calls the model. *)
Definition process_chat_question (question : pystr) (vectorstore : option VectorStore)
    : M ChatResult :=
  match vectorstore with
  | None => raise (ValueError (lit "Vector store not available"))
  | Some vs =>
      let retriever := as_retriever vs 5 in
      docs ← retriever_invoke retriever question;
      let context := _format_docs docs in
      markdown_answer ← llm_call (HR_PROMPT context question);
      let html_answer := markdown E markdown_answer in
      source_docs ← get_relevant_documents retriever question;
      let sources := map source_of source_docs in
      mret (mkChatResult html_answer sources)
  end.

(** *** app.py: the [/chat] view *)

Definition request_question (request_json : RequestJson) : M pystr :=
  fields ← match request_json with
           | JsonObject fields => mret fields
           | JsonFailure e => raise e
           end;
  match default (JString []) (fields !! lit "question") with
  | JString s => mret (strip s)
  | JOther type_name =>
      raise (AttributeError (lit "'" ++ type_name ++ lit "' object has no attribute 'strip'"))
  end.

Definition chat (request_json : RequestJson) : M (ResponseBody * Z) :=
  try_except
    (question ← request_question request_json;
     match question with
     | [] => mret (ErrorJson (lit "No question provided"), 400%Z)
     | _ =>
         vectorstore ← get_vector_store;
         match vectorstore with
         | None =>
             mret (ErrorJson (lit "Vector store not available. Please update first."), 400%Z)
         | Some _ =>
             response ← process_chat_question question vectorstore;
             mret (ChatJson response, 200%Z)
         end
     end)
    (λ e,
       logger ERROR (lit "Chat error: " ++ exc_msg e);;
       mret (ErrorJson (lit "Error: " ++ exc_msg e), 500%Z)).

End Services.

(** ** Specification-side definitions *)

(** The context block as the spec words it: the chunk texts in order,
    adjacent texts separated by a blank line. *)
Fixpoint context_block (texts : list pystr) : pystr :=
  match texts with
  | [] => []
  | t :: rest =>
      match rest with
      | [] => t
      | _ :: _ => t ++ NL ++ NL ++ context_block rest
      end
  end.

(** The documents one file contributes to a load: those its loader returns,
    none for an unsupported extension or a failed read. *)
Definition file_docs (E : Env) (file_path : pystr) : list Document :=
  match loaders (str_lower E (splitext file_path).2) with
  | None => []
  | Some kind =>
      match loader_load E kind file_path with
      | Ok documents => documents
      | Raise _ => []
      end
  end.

(** The external calls and log records of loading one file. *)
Definition file_events (E : Env) (file_path : pystr) : list Event :=
  let ext := str_lower E (splitext file_path).2 in
  match loaders ext with
  | None => [EvLog WARNING (lit "Unsupported file type: " ++ ext)]
  | Some kind =>
      EvFileLoad kind file_path ::
      match loader_load E kind file_path with
      | Ok documents =>
          [EvLog INFO (lit "Loaded " ++ str_of_nat (length documents)
                         ++ lit " documents from " ++ file_path)]
      | Raise e =>
          [EvLog ERROR (lit "Error loading " ++ file_path ++ lit ": " ++ exc_msg e)]
      end
  end.

Definition result_map {A B} (f : A → B) (r : result A) : result B :=
  match r with
  | Ok a => Ok (f a)
  | Raise e => Raise e
  end.

Definition is_llm_event (ev : Event) : bool :=
  match ev with EvLLM _ => true | _ => false end.

Definition is_search_event (ev : Event) : bool :=
  match ev with EvSearch _ _ _ => true | _ => false end.

(** A call to the Embedding Provider or to the Vector Index. *)
Definition is_network_event (ev : Event) : bool :=
  match ev with
  | EvLog _ _ | EvGlob _ | EvFileLoad _ _ | EvSleep _ => false
  | _ => true
  end.

(** Scores in the order of the sequence, none larger than the one before. *)
Definition non_increasing (scores : list Q) : Prop :=
  Sorted (λ a b, (b <= a)%Q) scores.

(** ** A small deployment, for evaluating the model *)

Definition ascii_lower (c : N) : N :=
  if ((65 <=? c) && (c <=? 90))%N then (c + 32)%N else c.

Definition skills_doc : Document :=
  mkDocument (lit "Skills: Python, JavaScript, React")
             {[ lit "source" := MStr (lit "docs/cv.txt") ]}.

(** A chunk of 212 characters. *)
Definition long_doc : Document :=
  mkDocument (lit "Experience: " ++ replicate 200 120%N)
             {[ lit "source" := MStr (lit "docs/cv.txt"); lit "page" := MInt 2 ]}.

(** Scores by rank: 1/n, 1/(n+1), ... *)
Fixpoint rank_scores (n : positive) (docs : list Document) : list (Document * Q) :=
  match docs with
  | [] => []
  | d :: rest => (d, (1 # n)%Q) :: rank_scores (Pos.succ n) rest
  end.

Definition demo_search (t : nat) (info : IndexInfo) (query : pystr) (k : nat)
    : result (list (Document * Q)) :=
  Ok (rank_scores 1 (take k (map rec_doc (records info)))).

(** A search whose answer depends on when it is asked. *)
Definition flaky_search (t : nat) (info : IndexInfo) (query : pystr) (k : nat)
    : result (list (Document * Q)) :=
  Ok (rank_scores 1 (take k (drop t (map rec_doc (records info))))).

Definition demo_llm (prompt : pystr) : result pystr :=
  Ok (lit "## Skills Assessment").

Definition timeout_llm (prompt : pystr) : result pystr :=
  Raise (mkExc (lit "APITimeoutError") (lit "Request timed out.")).

Definition demo_env_with
    (search : nat → IndexInfo → pystr → nat → result (list (Document * Q)))
    (llm : pystr → result pystr) : Env :=
  mkEnv
    {[ lit "INDEX_NAME" := lit "resumes"; lit "PINECONE_API_KEY" := lit "pk" ]}
    (λ p, bool_decide (p = lit "cv.txt") || bool_decide (p = lit "notes.md")
          || bool_decide (p = lit "scan.PDF"))
    (λ p, bool_decide (p = lit "docs"))
    (λ pattern,
       if bool_decide (pattern = lit "docs/**/*.txt") then [lit "docs/cv.txt"]
       else if bool_decide (pattern = lit "docs/**/*.pdf") then [lit "docs/scan.pdf"]
       else [])
    (λ kind p,
       match kind with
       | TextLoader => Ok [skills_doc]
       | _ => Raise (mkExc (lit "PdfReadError") (lit "EOF marker not found"))
       end)
    (map ascii_lower)
    (λ docs, docs)
    (λ texts, Ok (map (λ _, replicate 1536 0%Q) texts))
    search
    llm
    (λ md, lit "<h2>" ++ drop 3 md ++ lit "</h2>").

Definition demo_env : Env := demo_env_with demo_search demo_llm.

Definition demo_store : VectorStore := mkVectorStore (lit "resumes").

Definition demo_world : World :=
  mkWorld {[ lit "resumes" :=
               mkIndexInfo 1536 (lit "cosine")
                 [mkIndexRecord [] skills_doc; mkIndexRecord [] long_doc] ]} [].

(** A world whose project has no index. *)
Definition empty_world : World := mkWorld ∅ [].

(** ** app.py: the [/update_vectorstore] view *)

(** A flashed message with its category. *)
Record Flash := mkFlash { flash_message : pystr; flash_category : pystr }.

(** The view runs on the world and on the messages flashed so far. *)
Record Session := mkSession { sess_world : World; sess_flashes : list Flash }.

Definition MS (A : Type) : Type := Session → result A * Session.

#[global] Instance MS_ret : MRet MS := λ A a s, (Ok a, s).
#[global] Instance MS_bind : MBind MS := λ A B f m s,
  match m s with
  | (Ok a, s') => f a s'
  | (Raise e, s') => (Raise e, s')
  end.

(** A computation on the world, run inside the view. *)
Definition in_world {A} (m : M A) : MS A := λ s,
  let (r, w') := m (sess_world s) in (r, mkSession w' (sess_flashes s)).

(** [flash(message, category)]. *)
Definition flash (message category : pystr) : MS unit := λ s,
  (Ok tt, mkSession (sess_world s) (sess_flashes s ++ [mkFlash message category])).

Definition try_except_session {A} (m : MS A) (h : Exc → MS A) : MS A := λ s,
  match m s with
  | (Ok a, s') => (Ok a, s')
  | (Raise e, s') => h e s'
  end.

(** The response of the view: [redirect(url_for(endpoint))]. *)
Inductive Redirect := RedirectTo (endpoint : pystr).

Section UpdateView.
Context (E : Env).
(** [os.path.exists]. *)
Context (os_path_exists : pystr → bool).

(** [request.form.get('file_path', '').strip() or os.environ.get("FILE_PATH", "")]. *)
Definition requested_path (form : gmap pystr pystr) : pystr :=
  match strip (default [] (form !! lit "file_path")) with
  | [] => default [] (environ E !! lit "FILE_PATH")
  | p => p
  end.

Definition update_vectorstore (form : gmap pystr pystr) : MS Redirect :=
  let file_path := requested_path form in
  if bool_decide (file_path = []) || negb (os_path_exists file_path) then
    flash (lit "Invalid path: " ++ file_path) (lit "error");;
    mret (RedirectTo (lit "index"))
  else
    try_except_session
      (cleared ← in_world (delete_all_documents E);
       (if cleared : bool then flash (lit "Existing documents cleared.") (lit "info")
        else mret tt);;
       documents ← in_world (load_documents E file_path);
       match documents with
       | [] =>
           flash (lit "No documents found.") (lit "warning");;
           mret (RedirectTo (lit "index"))
       | _ =>
           vectorstore ← in_world (create_vector_store E documents);
           match vectorstore with
           | Some _ =>
               flash (lit "Successfully updated with " ++ str_of_nat (length documents)
                        ++ lit " documents.") (lit "success")
           | None => flash (lit "Error creating vector store.") (lit "error")
           end;;
           mret (RedirectTo (lit "index"))
       end)
      (λ e,
         flash (lit "Error: " ++ exc_msg e) (lit "error");;
         in_world (logger ERROR (lit "Update error: " ++ exc_msg e));;
         mret (RedirectTo (lit "index"))).

End UpdateView.

(** ** debug.py: the environment check *)

(** The marks of the diagnostic lines: U+1F50D, U+2705 and U+274C. *)
Definition mark_search : pystr := [128269%N].
Definition mark_ok : pystr := [9989%N].
Definition mark_fail : pystr := [10060%N].

(** [s * n] for a one-character string. *)
Definition stars (n : nat) : pystr := replicate n 42%N.

(** [f"{'*' * 10}...{value[-4:] if len(value) > 4 else '*' * len(value)}"]. *)
Definition masked (value : pystr) : pystr :=
  stars 10 ++ lit "..." ++
  (if (4 <? length value)%nat then drop (length value - 4) value
   else stars (length value)).

(** The truth value of [os.environ.get(var)]: set and not empty. *)
Definition truthy (value : option pystr) : bool :=
  match value with
  | Some (_ :: _) => true
  | _ => false
  end.

(** The line printed for one variable. *)
Definition env_var_line (var : pystr) (value : option pystr) : pystr :=
  match value with
  | Some (c :: v) => lit "   " ++ mark_ok ++ lit " " ++ var ++ lit ": " ++ masked (c :: v)
  | _ => lit "   " ++ mark_fail ++ lit " " ++ var ++ lit ": Not set"
  end.

(** [test_environment_variables()]: the lines printed and the value returned;
    [environ] is the environment after [load_dotenv()]. *)
Definition test_environment_variables (E : Env) : list pystr * bool :=
  let required_vars :=
    map (λ var, (var, environ E !! var))
      [lit "OPENAI_API_KEY"; lit "PINECONE_API_KEY"; lit "INDEX_NAME";
       lit "LANGCHAIN_API_KEY"] in
  ((mark_search ++ lit " Testing Environment Variables...")
     :: map (λ kv, env_var_line kv.1 kv.2) required_vars,
   forallb (λ kv, truthy kv.2) required_vars).

(** The documents [load_documents] returns, in closed form. *)
Definition loaded_docs (E : Env) (path : pystr) : list Document :=
  if isfile E path then file_docs E path
  else if isdir E path then
    concat (map (file_docs E)
      (glob_glob E (os_path_join path [lit "**"; lit "*.txt"])
       ++ glob_glob E (os_path_join path [lit "**"; lit "*.pdf"])
       ++ glob_glob E (os_path_join path [lit "**"; lit "*.docx"])))
  else [].

(** The records of the named index that [_ensure_index_exists] keeps: those
    of an index of dimension 1536, none otherwise. *)
Definition kept_records (w : World) (index_name : pystr) : list IndexRecord :=
  match pinecone w !! index_name with
  | Some info => if bool_decide (dimension info = 1536%Z) then records info else []
  | None => []
  end.

(** A search that answers once and fails afterwards. *)
Definition expiring_search (t : nat) (info : IndexInfo) (query : pystr) (k : nat)
    : result (list (Document * Q)) :=
  if (t =? 0)%nat then demo_search t info query k
  else Raise (mkExc (lit "ServiceException") (lit "(503) Service Unavailable")).

(** What the diagnostic line shows of a value: its last four characters
    when it has more than four, its length otherwise. *)
Definition exposure (value : pystr) : pystr + nat :=
  if (4 <? length value)%nat then inl (drop (length value - 4) value)
  else inr (length value).

(** The last flash of an update on a valid path, given the world in which
    the store is created. *)
Definition update_flash (E : Env) (path : pystr) (w : World) : Flash :=
  match loaded_docs E path with
  | [] => mkFlash (lit "No documents found.") (lit "warning")
  | documents =>
      match (create_vector_store E documents w).1 with
      | Ok (Some _) =>
          mkFlash (lit "Successfully updated with " ++ str_of_nat (length documents)
                     ++ lit " documents.") (lit "success")
      | _ => mkFlash (lit "Error creating vector store.") (lit "error")
      end
  end.


Definition is_space_char (c : N) : Prop := is_space c = true.

(** An embedding that fails. *)
Definition failing_embed_env : Env :=
  mkEnv (environ demo_env) (isfile demo_env) (isdir demo_env) (glob_glob demo_env)
    (loader_load demo_env) (str_lower demo_env) (split_documents demo_env)
    (λ _, Raise (mkExc (lit "RateLimitError") (lit "quota exceeded")))
    demo_search demo_llm (markdown demo_env).

(** A deployment with no environment variable set. *)
Definition unconfigured_env : Env :=
  mkEnv ∅ (isfile demo_env) (isdir demo_env) (glob_glob demo_env)
    (loader_load demo_env) (str_lower demo_env) (split_documents demo_env)
    (embed_documents demo_env) demo_search demo_llm (markdown demo_env).

(** A world whose index was built for another embedding model. *)
Definition legacy_world : World :=
  mkWorld {[ lit "resumes" :=
               mkIndexInfo 768 (lit "cosine") [mkIndexRecord [] skills_doc] ]} [].

(** ** Theorems *)

(** Running a computation one step: the monad and its primitives are
    unfolded and the record projections reduced; literals stay folded. *)
Ltac run :=
  repeat progress
    (unfold mbind, M_bind, mret, M_ret, raise, try_except, emit, get_indexes,
       put_indexes, now, logger, sleep;
     cbn [pinecone log fst snd negb]).

Lemma elem_of_index_names (idx : gmap pystr IndexInfo) (name : pystr) :
  name ∈ map fst (map_to_list idx) ↔ is_Some (idx !! name).
Proof.
  rewrite list_elem_of_fmap. split.
  - intros [[k v] [-> Hin]]. apply elem_of_map_to_list in Hin. by exists v.
  - intros [v Hv]. exists (name, v). split; [done|]. by apply elem_of_map_to_list.
Qed.

(** C1: when the named index exists with a dimension other than 1536, the
    dimension of the Embedding Provider, [_ensure_index_exists] deletes it and
    creates it again: the calls are list, describe, delete, sleep, create with
    dimension 1536 and cosine metric, sleep; the call returns normally; and
    afterwards the service reports for the name an empty index whose
    dimension is the Embedding Provider's. *)
Theorem ensure_index_exists_rebuilds_on_mismatch
    (index_name : pystr) (w : World) (info : IndexInfo) :
  pinecone w !! index_name = Some info →
  dimension info ≠ 1536%Z →
  ∃ w',
    _ensure_index_exists index_name w = (Ok tt, w') ∧
    log w' = log w ++
      [EvListIndexes; EvDescribeIndex index_name; EvDeleteIndex index_name;
       EvSleep 5; EvCreateIndex index_name 1536 (lit "cosine"); EvSleep 10] ∧
    pinecone w' = <[index_name := mkIndexInfo 1536 (lit "cosine") []]> (pinecone w) ∧
    ∃ info', (pc_describe_index index_name w').1 = Ok info' ∧
      dimension info' = embedding_dimension ∧ records info' = [].
Proof.
  intros Hlook Hdim.
  assert (Hin : index_name ∈ map fst (map_to_list (pinecone w)))
    by (apply elem_of_index_names; eauto).
  eexists. split; [|split; [|split]].
  - unfold _ensure_index_exists, pc_list_indexes, pc_describe_index,
      pc_delete_index, pc_create_index. run.
    rewrite (bool_decide_eq_true_2 _ Hin). run. rewrite Hlook. run.
    rewrite (bool_decide_eq_true_2 _ Hdim). run. rewrite Hlook. run.
    rewrite lookup_delete_eq. reflexivity.
  - cbn [log]. rewrite <- !app_assoc. reflexivity.
  - cbn [pinecone]. apply insert_delete_eq.
  - eexists. unfold pc_describe_index. run.
    rewrite insert_delete_eq, lookup_insert_eq. cbn [fst]. eauto.
Qed.

(** Scenario B: an index of dimension 768 that holds a record. *)
Lemma ensure_index_exists_rebuilds_on_mismatch_witness :
  let name := lit "resumes" in
  let doc := mkDocument (lit "Python, JavaScript, React") ∅ in
  let w := mkWorld {[ name := mkIndexInfo 768 (lit "cosine") [mkIndexRecord [] doc] ]} [] in
  ∃ w',
    _ensure_index_exists name w = (Ok tt, w') ∧
    log w' = log w ++
      [EvListIndexes; EvDescribeIndex name; EvDeleteIndex name;
       EvSleep 5; EvCreateIndex name 1536 (lit "cosine"); EvSleep 10] ∧
    pinecone w' = <[name := mkIndexInfo 1536 (lit "cosine") []]> (pinecone w) ∧
    ∃ info', (pc_describe_index name w').1 = Ok info' ∧
      dimension info' = embedding_dimension ∧ records info' = [].
Proof.
  intros name doc w.
  apply (ensure_index_exists_rebuilds_on_mismatch name w
           (mkIndexInfo 768 (lit "cosine") [mkIndexRecord [] doc])).
  - vm_compute. reflexivity.
  - cbn. lia.
Defined.

(** *** Running the retriever and the query operation *)

Lemma retriever_search_run (E : Env) (r : Retriever) (q : pystr) (w : World) :
  retriever_search E r q w =
  (match pinecone w !! vs_index_name (retr_store r) with
   | None => Raise (NotFoundException (vs_index_name (retr_store r)))
   | Some info => similarity_search_with_score E (length (log w)) info q (retr_k r)
   end,
   mkWorld (pinecone w) (log w ++ [EvSearch (vs_index_name (retr_store r)) q (retr_k r)])).
Proof.
  unfold retriever_search, lift. run.
  by destruct (pinecone w !! vs_index_name (retr_store r)).
Qed.

Lemma retriever_invoke_run (E : Env) (r : Retriever) (q : pystr) (w : World) :
  retriever_invoke E r q w =
  (result_map (map fst) (retriever_search E r q w).1, (retriever_search E r q w).2).
Proof.
  unfold retriever_invoke. run.
  by destruct (retriever_search E r q w) as [[pairs|e] w1].
Qed.

(** A retrieval reads the index and adds one search to the log. *)
Lemma retriever_invoke_world (E : Env) (r : Retriever) (q : pystr) (w : World) :
  (retriever_invoke E r q w).2 =
  mkWorld (pinecone w) (log w ++ [EvSearch (vs_index_name (retr_store r)) q (retr_k r)]).
Proof. by rewrite retriever_invoke_run, retriever_search_run. Qed.

Lemma llm_call_run (E : Env) (prompt : pystr) (w : World) :
  llm_call E prompt w = (llm_invoke E prompt, mkWorld (pinecone w) (log w ++ [EvLLM prompt])).
Proof. unfold llm_call, lift. run. reflexivity. Qed.

(** The steps of a query that returns. *)
Lemma process_chat_question_ok_inv (E : Env) (q : pystr) (vs : VectorStore)
    (w w' : World) (r : ChatResult) :
  process_chat_question E q (Some vs) w = (Ok r, w') →
  ∃ docs w1 md source_docs,
    retriever_invoke E (as_retriever vs 5) q w = (Ok docs, w1) ∧
    llm_invoke E (HR_PROMPT (_format_docs docs) q) = Ok md ∧
    get_relevant_documents E (as_retriever vs 5) q
      (mkWorld (pinecone w1) (log w1 ++ [EvLLM (HR_PROMPT (_format_docs docs) q)]))
      = (Ok source_docs, w') ∧
    r = mkChatResult (markdown E md) (map source_of source_docs).
Proof.
  unfold process_chat_question, get_relevant_documents. intros H.
  unfold mbind, M_bind in H.
  destruct (retriever_invoke E (as_retriever vs 5) q w) as [[docs|e] w1]; [|done].
  rewrite llm_call_run in H.
  destruct (llm_invoke E (HR_PROMPT (_format_docs docs) q)) as [md|e] eqn:Hllm; [|done].
  destruct (retriever_invoke E (as_retriever vs 5) q _) as [[source_docs|e] w2] eqn:H2;
    [|done].
  unfold mret, M_ret in H. injection H as <- <-.
  by exists docs, w1, md, source_docs.
Qed.

(** *** The context block *)

Lemma fold_left_join_acc (sep acc : pystr) (xs : list pystr) :
  fold_left (λ a y, a ++ sep ++ y) xs acc = acc ++ concat (map (λ y, sep ++ y) xs).
Proof.
  revert acc. induction xs as [|x xs IH]; intros acc; cbn [fold_left map concat].
  - by rewrite app_nil_r.
  - by rewrite IH, <- !app_assoc.
Qed.

Lemma py_join_cons (sep x y : pystr) (rest : list pystr) :
  py_join sep (x :: y :: rest) = x ++ sep ++ py_join sep (y :: rest).
Proof.
  unfold py_join. cbn [fold_left]. rewrite !fold_left_join_acc.
  by rewrite <- !app_assoc.
Qed.

Lemma format_docs_context_block (docs : list Document) :
  _format_docs docs = context_block (map page_content docs).
Proof.
  unfold _format_docs. induction docs as [|d [|d' rest] IH].
  - reflexivity.
  - reflexivity.
  - change (map page_content (d :: d' :: rest))
      with (page_content d :: page_content d' :: map page_content rest).
    rewrite py_join_cons. cbn [context_block].
    cbn [map] in IH. rewrite IH. by rewrite <- !app_assoc.
Qed.

(** C6: the context block is the texts of the retrieved chunks in the
    retriever's order, adjacent texts separated by a blank line and nothing
    else: [_format_docs] agrees with [context_block] on every result set, its
    length is the lengths of the texts plus two per gap, and in a query the
    prompt given to the model is the template filled with the context block
    of the documents the retriever returned. *)
Theorem context_is_chunk_texts_separated_by_blank_lines :
  (∀ docs : list Document,
     _format_docs docs = context_block (map page_content docs) ∧
     length (_format_docs docs) =
       (sum_list (map (λ d, length (page_content d)) docs) + 2 * (length docs - 1))%nat) ∧
  (∀ (E : Env) (q : pystr) (vs : VectorStore) (w w1 : World) (docs : list Document),
     retriever_invoke E (as_retriever vs 5) q w = (Ok docs, w1) →
     log w1 ++ [EvLLM (HR_PROMPT (context_block (map page_content docs)) q)]
       `prefix_of` log (process_chat_question E q (Some vs) w).2).
Proof.
  split.
  - intros docs. split; [apply format_docs_context_block|].
    rewrite format_docs_context_block.
    induction docs as [|d rest IH]; [reflexivity|].
    destruct rest as [|d' rest].
    + cbn [map context_block sum_list sum_list_with length]. unfold id. lia.
    + cbn [map context_block sum_list sum_list_with length] in *.
      rewrite !length_app, IH. unfold NL, id. cbn [length]. lia.
  - intros E q vs w w1 docs Hret.
    rewrite <- format_docs_context_block.
    unfold process_chat_question. unfold mbind at 1, M_bind at 1. rewrite Hret.
    clear Hret.
    unfold mbind at 1, M_bind at 1. rewrite llm_call_run.
    destruct (llm_invoke E _) as [md|e]; [|by cbn].
    unfold get_relevant_documents, mbind, M_bind.
    destruct (retriever_invoke E (as_retriever vs 5) q _) as [[sd|e] w2] eqn:Hw;
      apply (f_equal snd) in Hw; rewrite retriever_invoke_world in Hw;
      cbn [snd] in Hw; subst w2; cbn [snd log pinecone]; by apply prefix_app_r.
Qed.

Example format_docs_two_chunks :
  _format_docs [mkDocument (lit "ab") ∅; mkDocument (lit "c") ∅]
  = lit "ab" ++ [10; 10]%N ++ lit "c".
Proof. reflexivity. Qed.

(** *** The sources of an answer *)

(** C3: in the answer of a query that returns, the sources are, in order,
    the documents of the retrieval made for them, each with its metadata and
    with its text cut to its first 200 characters followed by "..." when the
    text is longer than 200 characters, and with its whole text otherwise. *)
Theorem sources_content_truncated_to_200
    (E : Env) (q : pystr) (vs : VectorStore) (w w' : World) (r : ChatResult) :
  process_chat_question E q (Some vs) w = (Ok r, w') →
  ∃ source_docs w2,
    get_relevant_documents E (as_retriever vs 5) q w2 = (Ok source_docs, w') ∧
    Forall2 (λ s d,
        metadata s = doc_metadata d ∧
        ((200 < length (page_content d))%nat →
           content s = take 200 (page_content d) ++ lit "..." ∧ length (content s) = 203%nat) ∧
        ((length (page_content d) ≤ 200)%nat → content s = page_content d))
      (sources r) source_docs.
Proof.
  intros H. apply process_chat_question_ok_inv in H
    as (docs & w1 & md & source_docs & _ & _ & Hsrc & ->).
  exists source_docs. eexists. split; [exact Hsrc|].
  cbn [sources]. apply Forall2_fmap_l, Forall_Forall2_diag, Forall_forall.
  intros d _. unfold source_of. cbn [content metadata]. split; [done|]. split.
  - intros Hlen. rewrite (proj2 (Nat.ltb_lt _ _) Hlen). split; [done|].
    cbn [content]. rewrite length_app, length_take.
    change (length (lit "...")) with 3%nat. lia.
  - intros Hlen. by rewrite (proj2 (Nat.ltb_ge _ _) Hlen).
Qed.

Lemma sources_content_truncated_to_200_witness :
  ∃ source_docs w2,
    get_relevant_documents demo_env (as_retriever demo_store 5)
      (lit "What skills does the candidate have?") w2
      = (Ok source_docs,
         (process_chat_question demo_env (lit "What skills does the candidate have?")
            (Some demo_store) demo_world).2) ∧
    Forall2 (λ s d,
        metadata s = doc_metadata d ∧
        ((200 < length (page_content d))%nat →
           content s = take 200 (page_content d) ++ lit "..." ∧ length (content s) = 203%nat) ∧
        ((length (page_content d) ≤ 200)%nat → content s = page_content d))
      [mkSource (page_content skills_doc) (doc_metadata skills_doc);
       mkSource (take 200 (page_content long_doc) ++ lit "...") (doc_metadata long_doc)]
      source_docs.
Proof.
  apply (sources_content_truncated_to_200 demo_env
           (lit "What skills does the candidate have?") demo_store demo_world _
           (mkChatResult (lit "<h2>Skills Assessment</h2>")
              [mkSource (page_content skills_doc) (doc_metadata skills_doc);
               mkSource (take 200 (page_content long_doc) ++ lit "...")
                        (doc_metadata long_doc)])).
  vm_compute. reflexivity.
Defined.

(** *** Loading documents *)

Example splitext_plain : splitext (lit "docs/cv.txt") = (lit "docs/cv", lit ".txt").
Proof. reflexivity. Qed.

Example splitext_hidden_file : splitext (lit "docs.d/.bashrc") = (lit "docs.d/.bashrc", []).
Proof. reflexivity. Qed.

Example os_path_join_pattern : os_path_join (lit "docs/") [lit "**"; lit "*.pdf"] = lit "docs/**/*.pdf".
Proof. reflexivity. Qed.

Example strip_question : strip (lit "  Who knows React? ") = lit "Who knows React?".
Proof. reflexivity. Qed.

Lemma load_single_file_run (E : Env) (file_path : pystr) (w : World) :
  _load_single_file E file_path w =
  (Ok (file_docs E file_path), mkWorld (pinecone w) (log w ++ file_events E file_path)).
Proof.
  unfold _load_single_file, file_docs, file_events, loader_run, lift.
  destruct (loaders (str_lower E (splitext file_path).2)) as [kind|]; run.
  - destruct (loader_load E kind file_path) as [documents|e]; run;
      by rewrite <- app_assoc.
  - reflexivity.
Qed.

Lemma extend_from_files_run (E : Env) (files : list pystr) (documents : list Document)
    (w : World) :
  extend_from_files E files documents w =
  (Ok (documents ++ concat (map (file_docs E) files)),
   mkWorld (pinecone w) (log w ++ concat (map (file_events E) files))).
Proof.
  revert documents w. induction files as [|file rest IH]; intros documents w.
  - cbn. rewrite !app_nil_r. by destruct w.
  - cbn [extend_from_files map concat]. unfold mbind, M_bind.
    rewrite load_single_file_run, IH. cbn [pinecone log].
    by rewrite <- !app_assoc.
Qed.

Lemma extend_from_patterns_returns (E : Env) (path : pystr) (exts : list pystr)
    (documents : list Document) (w : World) :
  ∃ docs w', extend_from_patterns E path exts documents w = (Ok docs, w').
Proof.
  revert documents w. induction exts as [|ext rest IH]; intros documents w.
  - by exists documents, w.
  - cbn [extend_from_patterns]. run. rewrite extend_from_files_run. apply IH.
Qed.

(** C8: loading one file never raises: it returns the documents the file
    contributes and leaves the index alone.  An unsupported extension
    contributes no document and logs a warning, with no read attempted; a
    read that fails contributes no document and logs the error.  Loading a
    list of files therefore returns the documents of the files that load, in
    order, after those already collected, and [load_documents] returns for
    every path. *)
Theorem load_single_file_never_raises (E : Env) :
  (∀ file_path w,
     _load_single_file E file_path w =
     (Ok (file_docs E file_path),
      mkWorld (pinecone w) (log w ++ file_events E file_path))) ∧
  (∀ file_path,
     loaders (str_lower E (splitext file_path).2) = None →
     file_docs E file_path = [] ∧
     file_events E file_path =
       [EvLog WARNING (lit "Unsupported file type: " ++ str_lower E (splitext file_path).2)]) ∧
  (∀ file_path kind e,
     loaders (str_lower E (splitext file_path).2) = Some kind →
     loader_load E kind file_path = Raise e →
     file_docs E file_path = [] ∧
     file_events E file_path =
       [EvFileLoad kind file_path;
        EvLog ERROR (lit "Error loading " ++ file_path ++ lit ": " ++ exc_msg e)]) ∧
  (∀ files documents w,
     extend_from_files E files documents w =
     (Ok (documents ++ concat (map (file_docs E) files)),
      mkWorld (pinecone w) (log w ++ concat (map (file_events E) files)))) ∧
  (∀ path w, ∃ docs w', load_documents E path w = (Ok docs, w')).
Proof.
  split; [|split; [|split; [|split]]].
  - apply load_single_file_run.
  - intros file_path Hext. unfold file_docs, file_events. by rewrite Hext.
  - intros file_path kind e Hext Hload. unfold file_docs, file_events.
    by rewrite Hext, Hload.
  - apply extend_from_files_run.
  - intros path w. unfold load_documents.
    destruct (isfile E path).
    + unfold mbind, M_bind. rewrite load_single_file_run. by eexists _, _.
    + destruct (isdir E path); [apply extend_from_patterns_returns|].
      by exists [], w.
Qed.

(** A directory with a text file and a PDF that cannot be read: the text
    file's document is returned and the PDF's failure is logged. *)
Example load_documents_skips_broken_file :
  load_documents demo_env (lit "docs") empty_world =
  (Ok [skills_doc],
   mkWorld ∅
     [EvGlob (lit "docs/**/*.txt");
      EvFileLoad TextLoader (lit "docs/cv.txt");
      EvLog INFO (lit "Loaded 1 documents from docs/cv.txt");
      EvGlob (lit "docs/**/*.pdf");
      EvFileLoad PyPDFLoader (lit "docs/scan.pdf");
      EvLog ERROR (lit "Error loading docs/scan.pdf: EOF marker not found");
      EvGlob (lit "docs/**/*.docx")]).
Proof. vm_compute. reflexivity. Qed.

Example load_single_file_unsupported :
  _load_single_file demo_env (lit "notes.md") empty_world =
  (Ok [], mkWorld ∅ [EvLog WARNING (lit "Unsupported file type: .md")]).
Proof. vm_compute. reflexivity. Qed.

Example load_single_file_upper_case_extension :
  _load_single_file demo_env (lit "scan.PDF") empty_world =
  (Ok [],
   mkWorld ∅
     [EvFileLoad PyPDFLoader (lit "scan.PDF");
      EvLog ERROR (lit "Error loading scan.PDF: EOF marker not found")]).
Proof. vm_compute. reflexivity. Qed.

(** C10: a path that is neither a regular file nor a directory loads to the
    empty list: the call returns, and the world is as before, so that nothing
    was read, listed or logged. *)
Theorem load_documents_missing_path (E : Env) (path : pystr) (w : World) :
  isfile E path = false →
  isdir E path = false →
  load_documents E path w = (Ok [], w).
Proof.
  intros Hfile Hdir. unfold load_documents. by rewrite Hfile, Hdir.
Qed.

Lemma load_documents_missing_path_witness :
  load_documents demo_env (lit "no/such/path") demo_world = (Ok [], demo_world).
Proof.
  apply (load_documents_missing_path demo_env (lit "no/such/path") demo_world);
    vm_compute; reflexivity.
Defined.

(** *** Creating the vector store *)

Lemma try_except_returns {A} (m : M A) (h : Exc → M A) (w : World) :
  (∀ e w1, ∃ a w2, h e w1 = (Ok a, w2)) →
  ∃ a w', try_except m h w = (Ok a, w').
Proof.
  intros Hh. unfold try_except. destruct (m w) as [[a|e] w1]; [by eexists _, _|].
  apply Hh.
Qed.

(** C4, as the code has it: on an empty list [create_vector_store] returns
    [None] and leaves the world as it was, so that no call reaches the
    Embedding Provider or the Vector Index.  [None] is not a vector store: the
    function never raises, and [None] is also what it returns for a
    non-empty list when the Embedding Provider fails. *)
Theorem create_vector_store_empty_returns_None (E : Env) :
  (∀ w, create_vector_store E [] w = (Ok None, w)) ∧
  (∀ documents w, ∃ r w', create_vector_store E documents w = (Ok r, w')) ∧
  (∀ documents w e,
     documents ≠ [] →
     embed_documents E (map page_content (split_documents E documents)) = Raise e →
     ∃ w', create_vector_store E documents w = (Ok None, w')).
Proof.
  split; [|split].
  - reflexivity.
  - intros [|d documents] w; [by exists None, w|].
    cbn [create_vector_store]. apply try_except_returns.
    intros e w1. run. by eexists _, _.
  - intros [|d documents] w e Hne Hembed; [done|].
    cbn [create_vector_store]. unfold try_except, from_documents, lift.
    rewrite Hembed. unfold mbind, M_bind, environ_get.
    destruct (environ E !! lit "PINECONE_API_KEY"); run; [|by eexists].
    destruct (environ E !! lit "INDEX_NAME") as [index_name|]; run; [|by eexists].
    destruct (_ensure_index_exists index_name w) as [[[]|e'] w1]; run; by eexists.
Qed.

(** The claim of C4 as stated fails: on the empty list the call does not
    return a vector store. *)
Lemma create_vector_store_empty_is_not_success :
  ¬ ∃ vectorstore w',
      create_vector_store demo_env [] demo_world = (Ok (Some vectorstore), w').
Proof. intros (vectorstore & w' & H). discriminate H. Qed.

Example create_vector_store_one_document :
  ∃ w', create_vector_store demo_env [skills_doc] empty_world
          = (Ok (Some demo_store), w') ∧
        filter is_network_event (log w') =
          [EvListIndexes; EvCreateIndex (lit "resumes") 1536 (lit "cosine");
           EvEmbed [page_content skills_doc]; EvUpsert (lit "resumes") 1].
Proof. eexists. split; vm_compute; reflexivity. Qed.

(** *** The query operation and the [/chat] view *)

Lemma get_vector_store_run (E : Env) (w : World) :
  get_vector_store E w =
  match environ E !! lit "INDEX_NAME" with
  | None =>
      (Ok None,
       mkWorld (pinecone w)
         (log w ++ [EvLog ERROR (lit "Error getting vector store: "
                                   ++ exc_msg (KeyError (lit "INDEX_NAME")))]))
  | Some name =>
      match pinecone w !! name with
      | Some _ =>
          (Ok (Some (mkVectorStore name)),
           mkWorld (pinecone w) (log w ++ [EvDescribeIndex name]))
      | None =>
          (Ok None,
           mkWorld (pinecone w)
             (log w ++ [EvDescribeIndex name;
                        EvLog ERROR (lit "Error getting vector store: "
                                       ++ exc_msg (NotFoundException name))]))
      end
  end.
Proof.
  unfold get_vector_store, vectorstore_open, pc_describe_index, environ_get.
  destruct (environ E !! lit "INDEX_NAME") as [name|]; run; [|done].
  destruct (pinecone w !! name); run; [done|]. by rewrite <- app_assoc.
Qed.

(** Opening the store reads the index and does not search or generate. *)
Lemma get_vector_store_world (E : Env) (w w1 : World) (r : option VectorStore) :
  get_vector_store E w = (Ok r, w1) →
  pinecone w1 = pinecone w ∧
  ∃ evs, log w1 = log w ++ evs ∧
    Forall (λ ev, is_llm_event ev = false ∧ is_search_event ev = false) evs.
Proof.
  rewrite get_vector_store_run. intros H.
  destruct (environ E !! lit "INDEX_NAME") as [name|];
    [destruct (pinecone w !! name)|];
    injection H as <- <-; (split; [done|]); eexists; (split; [done|]);
    repeat constructor.
Qed.

Lemma chat_run (E : Env) (fields : gmap pystr JsonValue) (s : pystr) (w w1 : World)
    (vectorstore : option VectorStore) :
  fields !! lit "question" = Some (JString s) →
  strip s ≠ [] →
  get_vector_store E w = (Ok vectorstore, w1) →
  chat E (JsonObject fields) w =
  match vectorstore with
  | None =>
      (Ok (ErrorJson (lit "Vector store not available. Please update first."), 400%Z), w1)
  | Some vs =>
      match process_chat_question E (strip s) (Some vs) w1 with
      | (Ok response, w2) => (Ok (ChatJson response, 200%Z), w2)
      | (Raise e, w2) =>
          (Ok (ErrorJson (lit "Error: " ++ exc_msg e), 500%Z),
           mkWorld (pinecone w2) (log w2 ++ [EvLog ERROR (lit "Chat error: " ++ exc_msg e)]))
      end
  end.
Proof.
  intros Hq Hs Hstore. unfold chat, request_question. run. rewrite Hq.
  cbn [from_option]. unfold id. run.
  destruct (strip s) as [|c q] eqn:Hstrip; [done|]. run. rewrite Hstore.
  destruct vectorstore as [vs|]; [|done].
  by destruct (process_chat_question E (c :: q) (Some vs) w1) as [[response|e] w2].
Qed.

(** C5: a query made when no vector store could be obtained fails and says
    so.  [process_chat_question] without a store raises the error "Vector
    store not available" and does nothing else; the [/chat] view answers a
    non-blank question with status 400 and the message "Vector store not
    available. Please update first.", with no search and no call to the
    model, and not with an answer; the response differs from the one given
    when generation fails (status 500). *)
Theorem query_without_vector_store_fails
    (E : Env) (fields : gmap pystr JsonValue) (s : pystr) (w w1 : World) :
  fields !! lit "question" = Some (JString s) →
  strip s ≠ [] →
  get_vector_store E w = (Ok None, w1) →
  process_chat_question E (strip s) None w1
    = (Raise (ValueError (lit "Vector store not available")), w1) ∧
  chat E (JsonObject fields) w
    = (Ok (ErrorJson (lit "Vector store not available. Please update first."), 400%Z), w1) ∧
  pinecone w1 = pinecone w ∧
  (∃ evs, log w1 = log w ++ evs ∧
     Forall (λ ev, is_llm_event ev = false ∧ is_search_event ev = false) evs) ∧
  (∀ e, (ErrorJson (lit "Vector store not available. Please update first."), 400%Z)
        ≠ (ErrorJson (lit "Error: " ++ exc_msg e), 500%Z)).
Proof.
  intros Hq Hs Hstore. split; [reflexivity|]. split.
  - by rewrite (chat_run E fields s w w1 None).
  - destruct (get_vector_store_world E w w1 None Hstore) as [Hidx Hlog].
    split; [done|]. split; [done|]. intros e H. by injection H.
Qed.

(** The store cannot be obtained when the index name is not configured or
    the service has no index of that name. *)
Lemma get_vector_store_absent (E : Env) (w : World) :
  (environ E !! lit "INDEX_NAME" = None ∨
   ∃ name, environ E !! lit "INDEX_NAME" = Some name ∧ pinecone w !! name = None) →
  ∃ w1, get_vector_store E w = (Ok None, w1).
Proof.
  rewrite get_vector_store_run. intros [->|(name & -> & ->)]; by eexists.
Qed.

Lemma query_without_vector_store_fails_witness :
  let fields : gmap pystr JsonValue :=
    {[ lit "question" := JString (lit "  What skills does the candidate have? ") ]} in
  let q := lit "What skills does the candidate have?" in
  let w1 := mkWorld ∅
    [EvDescribeIndex (lit "resumes");
     EvLog ERROR (lit "Error getting vector store: (404) Resource resumes not found")] in
  process_chat_question demo_env q None w1
    = (Raise (ValueError (lit "Vector store not available")), w1) ∧
  chat demo_env (JsonObject fields) empty_world
    = (Ok (ErrorJson (lit "Vector store not available. Please update first."), 400%Z), w1) ∧
  pinecone w1 = pinecone empty_world ∧
  (∃ evs, log w1 = log empty_world ++ evs ∧
     Forall (λ ev, is_llm_event ev = false ∧ is_search_event ev = false) evs) ∧
  (∀ e, (ErrorJson (lit "Vector store not available. Please update first."), 400%Z)
        ≠ (ErrorJson (lit "Error: " ++ exc_msg e), 500%Z)).
Proof.
  intros fields q w1.
  apply (query_without_vector_store_fails demo_env fields
           (lit "  What skills does the candidate have? ") empty_world w1).
  - vm_compute. reflexivity.
  - vm_compute. discriminate.
  - vm_compute. reflexivity.
Defined.

(** C2: when the retrieval succeeds and the model call on the filled prompt
    fails with [e], [process_chat_question] raises that same [e] to its
    caller; it has made one search and one model call and nothing after
    (the log grows by exactly these two calls, so the model is called once);
    and the indexes are as before.  In the [/chat] view the error reaches
    the client as status 500 with the error's message, after one log
    record, again with the indexes unchanged. *)
Theorem llm_failure_propagates_without_retry
    (E : Env) (q : pystr) (vs : VectorStore) (w w1 : World) (docs : list Document)
    (e : Exc) :
  retriever_invoke E (as_retriever vs 5) q w = (Ok docs, w1) →
  llm_invoke E (HR_PROMPT (_format_docs docs) q) = Raise e →
  ∃ w',
    process_chat_question E q (Some vs) w = (Raise e, w') ∧
    log w' = log w ++ [EvSearch (vs_index_name vs) q 5;
                       EvLLM (HR_PROMPT (_format_docs docs) q)] ∧
    length (filter is_llm_event (log w')) = S (length (filter is_llm_event (log w))) ∧
    pinecone w' = pinecone w ∧
    ∀ fields s w0,
      fields !! lit "question" = Some (JString s) →
      strip s = q → q ≠ [] →
      get_vector_store E w0 = (Ok (Some vs), w) →
      chat E (JsonObject fields) w0
        = (Ok (ErrorJson (lit "Error: " ++ exc_msg e), 500%Z),
           mkWorld (pinecone w0)
             (log w' ++ [EvLog ERROR (lit "Chat error: " ++ exc_msg e)])).
Proof.
  intros Hret Hllm.
  assert (Hw1 : w1 = mkWorld (pinecone w) (log w ++ [EvSearch (vs_index_name vs) q 5])).
  { apply (f_equal snd) in Hret. by rewrite retriever_invoke_world in Hret. }
  assert (Hrun : process_chat_question E q (Some vs) w =
    (Raise e, mkWorld (pinecone w)
       (log w ++ [EvSearch (vs_index_name vs) q 5;
                  EvLLM (HR_PROMPT (_format_docs docs) q)]))).
  { unfold process_chat_question. unfold mbind at 1, M_bind at 1. rewrite Hret.
    unfold mbind at 1, M_bind at 1. rewrite llm_call_run, Hllm. subst w1.
    cbn [pinecone log]. by rewrite <- app_assoc. }
  eexists. split; [exact Hrun|]. cbn [log pinecone]. split; [done|]. split; [|split].
  - rewrite filter_app, length_app, Nat.add_comm. reflexivity.
  - done.
  - intros fields s w0 Hq Hs Hne Hstore. subst q.
    rewrite (chat_run E fields s w0 w (Some vs) Hq Hne Hstore), Hrun.
    destruct (get_vector_store_world E w0 w _ Hstore) as [-> _]. done.
Qed.

(** Scenario E: the model call times out. *)
Lemma llm_failure_propagates_without_retry_witness :
  let E := demo_env_with demo_search timeout_llm in
  let q := lit "What skills does the candidate have?" in
  let e := mkExc (lit "APITimeoutError") (lit "Request timed out.") in
  let docs := [skills_doc; long_doc] in
  ∃ w',
    process_chat_question E q (Some demo_store) demo_world = (Raise e, w') ∧
    log w' = log demo_world ++ [EvSearch (vs_index_name demo_store) q 5;
                                EvLLM (HR_PROMPT (_format_docs docs) q)] ∧
    length (filter is_llm_event (log w'))
      = S (length (filter is_llm_event (log demo_world))) ∧
    pinecone w' = pinecone demo_world ∧
    ∀ fields s w0,
      fields !! lit "question" = Some (JString s) →
      strip s = q → q ≠ [] →
      get_vector_store E w0 = (Ok (Some demo_store), demo_world) →
      chat E (JsonObject fields) w0
        = (Ok (ErrorJson (lit "Error: " ++ exc_msg e), 500%Z),
           mkWorld (pinecone w0)
             (log w' ++ [EvLog ERROR (lit "Chat error: " ++ exc_msg e)])).
Proof.
  intros E q e docs.
  apply (llm_failure_propagates_without_retry E q demo_store demo_world
           (mkWorld (pinecone demo_world) [EvSearch (lit "resumes") q 5]) docs e).
  - vm_compute. reflexivity.
  - reflexivity.
Defined.

Example chat_when_the_model_times_out :
  chat (demo_env_with demo_search timeout_llm)
    (JsonObject {[ lit "question" := JString (lit "Who knows React?") ]}) demo_world
  = (Ok (ErrorJson (lit "Error: Request timed out."), 500%Z),
     mkWorld (pinecone demo_world)
       [EvDescribeIndex (lit "resumes");
        EvSearch (lit "resumes") (lit "Who knows React?") 5;
        EvLLM (HR_PROMPT (_format_docs [skills_doc; long_doc]) (lit "Who knows React?"));
        EvLog ERROR (lit "Chat error: Request timed out.")]).
Proof. vm_compute. reflexivity. Qed.

(** *** The two retrievals of a query *)

Lemma retriever_invoke_deterministic (E : Env) (r : Retriever) (q : pystr)
    (wa wb : World) :
  (∀ t t' info query k,
     similarity_search_with_score E t info query k
     = similarity_search_with_score E t' info query k) →
  pinecone wa = pinecone wb →
  (retriever_invoke E r q wa).1 = (retriever_invoke E r q wb).1.
Proof.
  intros Hdet Hidx. rewrite !retriever_invoke_run, !retriever_search_run.
  cbn [fst]. rewrite Hidx.
  destruct (pinecone wb !! vs_index_name (retr_store r)) as [info|]; [|done].
  by rewrite (Hdet (length (log wa)) (length (log wb))).
Qed.

(** C9: a query that returns has made two retrievals with the same question,
    one before the model call for the context and one after it for the
    sources, and the indexes are the same at both (the query does not change
    them).  When the similarity search is a function of the question and of
    the index contents alone, two retrievals on worlds with the same indexes
    return the same documents, and the sources of the answer are exactly the
    documents whose texts made the context of the prompt. *)
Theorem sources_are_the_context_chunks
    (E : Env) (q : pystr) (vs : VectorStore) (w w' : World) (r : ChatResult) :
  (∀ t t' info query k,
     similarity_search_with_score E t info query k
     = similarity_search_with_score E t' info query k) →
  process_chat_question E q (Some vs) w = (Ok r, w') →
  ∃ docs,
    (retriever_invoke E (as_retriever vs 5) q w).1 = Ok docs ∧
    log w' = log w ++ [EvSearch (vs_index_name vs) q 5;
                       EvLLM (HR_PROMPT (_format_docs docs) q);
                       EvSearch (vs_index_name vs) q 5] ∧
    pinecone w' = pinecone w ∧
    sources r = map source_of docs ∧
    (∀ wa wb, pinecone wa = pinecone wb →
       (retriever_invoke E (as_retriever vs 5) q wa).1
       = (retriever_invoke E (as_retriever vs 5) q wb).1).
Proof.
  intros Hdet H. apply process_chat_question_ok_inv in H
    as (docs & w1 & md & source_docs & Hret & Hllm & Hsrc & ->).
  unfold get_relevant_documents in Hsrc.
  assert (Hw1 : w1 = mkWorld (pinecone w) (log w ++ [EvSearch (vs_index_name vs) q 5])).
  { apply (f_equal snd) in Hret. by rewrite retriever_invoke_world in Hret. }
  subst w1. cbn [pinecone log] in Hsrc.
  pose proof (f_equal snd Hsrc) as Hw'. rewrite retriever_invoke_world in Hw'.
  cbn [snd pinecone log retr_store retr_k as_retriever] in Hw'. subst w'.
  pose proof (retriever_invoke_deterministic E (as_retriever vs 5) q w
    (mkWorld (pinecone w)
       ((log w ++ [EvSearch (vs_index_name vs) q 5])
          ++ [EvLLM (HR_PROMPT (_format_docs docs) q)])) Hdet eq_refl) as Hsame.
  rewrite Hret, Hsrc in Hsame. cbn [fst] in Hsame. injection Hsame as <-.
  exists docs. rewrite Hret. cbn [fst log pinecone sources].
  split; [done|]. split; [by rewrite <- !app_assoc|]. split; [done|]. split; [done|].
  intros wa wb. by apply retriever_invoke_deterministic.
Qed.

Lemma sources_are_the_context_chunks_witness :
  let q := lit "What skills does the candidate have?" in
  ∃ docs,
    (retriever_invoke demo_env (as_retriever demo_store 5) q demo_world).1 = Ok docs ∧
    log (process_chat_question demo_env q (Some demo_store) demo_world).2 =
      log demo_world ++ [EvSearch (vs_index_name demo_store) q 5;
                         EvLLM (HR_PROMPT (_format_docs docs) q);
                         EvSearch (vs_index_name demo_store) q 5] ∧
    pinecone (process_chat_question demo_env q (Some demo_store) demo_world).2
      = pinecone demo_world ∧
    sources (mkChatResult (lit "<h2>Skills Assessment</h2>")
               (map source_of [skills_doc; long_doc])) = map source_of docs ∧
    (∀ wa wb, pinecone wa = pinecone wb →
       (retriever_invoke demo_env (as_retriever demo_store 5) q wa).1
       = (retriever_invoke demo_env (as_retriever demo_store 5) q wb).1).
Proof.
  intros q.
  apply (sources_are_the_context_chunks demo_env q demo_store demo_world).
  - intros t t' info query k. reflexivity.
  - vm_compute. reflexivity.
Defined.

(** With a search whose answer changes between the two invocations the
    sources are not the chunks of the context: here the context is made of
    two chunks and no source is reported. *)
Example sources_differ_when_retrieval_is_not_deterministic :
  let q := lit "What skills does the candidate have?" in
  process_chat_question (demo_env_with flaky_search demo_llm) q (Some demo_store) demo_world
  = (Ok (mkChatResult (lit "<h2>Skills Assessment</h2>") []),
     mkWorld (pinecone demo_world)
       [EvSearch (lit "resumes") q 5;
        EvLLM (HR_PROMPT (_format_docs [skills_doc; long_doc]) q);
        EvSearch (lit "resumes") q 5]).
Proof. vm_compute. reflexivity. Qed.

(** *** The order of the retrieved pairs *)

Lemma rank_scores_non_increasing (n : positive) (docs : list Document) :
  non_increasing (map snd (rank_scores n docs)).
Proof.
  unfold non_increasing. revert n. induction docs as [|d rest IH]; intros n.
  - constructor.
  - cbn [rank_scores map snd]. constructor; [apply IH|].
    destruct rest as [|d' rest]; constructor.
    unfold Qle. cbn. lia.
Qed.

Lemma rank_scores_length (n : positive) (docs : list Document) :
  length (rank_scores n docs) = length docs.
Proof.
  revert n. induction docs as [|d rest IH]; intros n; [done|].
  cbn [rank_scores length]. by rewrite IH.
Qed.

Lemma demo_search_ranked (t : nat) (info : IndexInfo) (query : pystr) (k : nat)
    (pairs : list (Document * Q)) :
  demo_search t info query k = Ok pairs →
  (length pairs ≤ k)%nat ∧ non_increasing (map snd pairs).
Proof.
  unfold demo_search. intros [= <-]. split.
  - rewrite rank_scores_length, length_take. lia.
  - apply rank_scores_non_increasing.
Qed.



(** On the deployment whose index ranks by score the retrieval returns two
    pairs, best first. *)
Example retriever_pairs_on_a_ranking_index :
  retriever_search demo_env (as_retriever demo_store 5) (lit "Who knows React?") demo_world
  = (Ok [(skills_doc, (1 # 1)%Q); (long_doc, (1 # 2)%Q)],
     mkWorld (pinecone demo_world)
       [EvSearch (lit "resumes") (lit "Who knows React?") 5]).
Proof. vm_compute. reflexivity. Qed.

(** ** Further properties of the services *)

(** *** The index lifecycle *)

Lemma ensure_index_exists_run (index_name : pystr) (w : World) :
  _ensure_index_exists index_name w =
  match pinecone w !! index_name with
  | None =>
      (Ok tt,
       mkWorld (<[index_name := mkIndexInfo 1536 (lit "cosine") []]> (pinecone w))
         (log w ++ [EvListIndexes; EvCreateIndex index_name 1536 (lit "cosine");
                    EvSleep 10]))
  | Some info =>
      if bool_decide (dimension info ≠ 1536%Z) then
        (Ok tt,
         mkWorld (<[index_name := mkIndexInfo 1536 (lit "cosine") []]> (pinecone w))
           (log w ++ [EvListIndexes; EvDescribeIndex index_name;
                      EvDeleteIndex index_name; EvSleep 5;
                      EvCreateIndex index_name 1536 (lit "cosine"); EvSleep 10]))
      else
        (Ok tt, mkWorld (pinecone w) (log w ++ [EvListIndexes; EvDescribeIndex index_name]))
  end.
Proof.
  unfold _ensure_index_exists, pc_list_indexes, pc_describe_index,
    pc_delete_index, pc_create_index. run.
  destruct (pinecone w !! index_name) as [info|] eqn:Hlook.
  - rewrite bool_decide_eq_true_2 by (apply elem_of_index_names; eauto).
    run. rewrite Hlook. run.
    destruct (bool_decide (dimension info ≠ 1536%Z)); run.
    + rewrite Hlook. run. rewrite lookup_delete_eq. run. rewrite insert_delete_eq.
      by rewrite <- !app_assoc.
    + by rewrite <- !app_assoc.
  - rewrite bool_decide_eq_false_2.
    2:{ rewrite elem_of_index_names, Hlook. by intros [? ?]. }
    run. rewrite Hlook. run. by rewrite <- !app_assoc.
Qed.

(** [_ensure_index_exists] returns on every world, and afterwards the named
    index exists with dimension 1536; no other index of the project is
    touched. *)
Theorem ensure_index_exists_dimension_invariant (index_name : pystr) (w : World) :
  ∃ w',
    _ensure_index_exists index_name w = (Ok tt, w') ∧
    (∃ info', pinecone w' !! index_name = Some info' ∧ dimension info' = 1536%Z) ∧
    (∀ other, other ≠ index_name → pinecone w' !! other = pinecone w !! other).
Proof.
  rewrite ensure_index_exists_run.
  destruct (pinecone w !! index_name) as [info|] eqn:Hlook;
    [destruct (bool_decide (dimension info ≠ 1536%Z)) eqn:Hdim|];
    eexists; (split; [reflexivity|]); cbn [pinecone]; split;
    try (by eexists; rewrite lookup_insert_eq);
    try (by intros other Hne; rewrite lookup_insert_ne).
  exists info. split; [done|].
  apply bool_decide_eq_false_1 in Hdim. by destruct (decide (dimension info = 1536%Z)).
Qed.

(** An index that already has dimension 1536 is left as it is, records
    included, whatever its metric: the call only lists and describes. *)
Theorem ensure_index_exists_keeps_matching_index
    (index_name : pystr) (w : World) (info : IndexInfo) :
  pinecone w !! index_name = Some info →
  dimension info = 1536%Z →
  _ensure_index_exists index_name w =
  (Ok tt, mkWorld (pinecone w) (log w ++ [EvListIndexes; EvDescribeIndex index_name])).
Proof.
  intros Hlook Hdim. rewrite ensure_index_exists_run, Hlook.
  rewrite bool_decide_eq_false_2; [done|]. by intros H.
Qed.

Lemma ensure_index_exists_keeps_matching_index_witness :
  _ensure_index_exists (lit "resumes") demo_world =
  (Ok tt,
   mkWorld (pinecone demo_world)
     (log demo_world ++ [EvListIndexes; EvDescribeIndex (lit "resumes")])).
Proof.
  apply (ensure_index_exists_keeps_matching_index (lit "resumes") demo_world
           (mkIndexInfo 1536 (lit "cosine")
              [mkIndexRecord [] skills_doc; mkIndexRecord [] long_doc]));
    vm_compute; reflexivity.
Defined.

(** An absent index is created empty with dimension 1536 and the cosine
    metric, followed by one sleep of 10 seconds; nothing is described or
    deleted. *)
Theorem ensure_index_exists_creates_absent_index (index_name : pystr) (w : World) :
  pinecone w !! index_name = None →
  _ensure_index_exists index_name w =
  (Ok tt,
   mkWorld (<[index_name := mkIndexInfo 1536 (lit "cosine") []]> (pinecone w))
     (log w ++ [EvListIndexes; EvCreateIndex index_name 1536 (lit "cosine"); EvSleep 10])).
Proof. intros Hlook. by rewrite ensure_index_exists_run, Hlook. Qed.

Lemma ensure_index_exists_creates_absent_index_witness :
  _ensure_index_exists (lit "resumes") empty_world =
  (Ok tt,
   mkWorld (<[lit "resumes" := mkIndexInfo 1536 (lit "cosine") []]> (pinecone empty_world))
     (log empty_world ++
        [EvListIndexes; EvCreateIndex (lit "resumes") 1536 (lit "cosine"); EvSleep 10])).
Proof.
  apply (ensure_index_exists_creates_absent_index (lit "resumes") empty_world).
  vm_compute. reflexivity.
Defined.

(** Running [_ensure_index_exists] a second time changes no index: whatever
    the first run did, the second only lists and describes. *)
Theorem ensure_index_exists_idempotent (index_name : pystr) (w : World) :
  let w1 := (_ensure_index_exists index_name w).2 in
  _ensure_index_exists index_name w1 =
  (Ok tt, mkWorld (pinecone w1) (log w1 ++ [EvListIndexes; EvDescribeIndex index_name])).
Proof.
  intros w1. subst w1. rewrite (ensure_index_exists_run index_name w).
  destruct (pinecone w !! index_name) as [info|] eqn:Hlook;
    [destruct (bool_decide (dimension info ≠ 1536%Z)) eqn:Hdim|];
    cbn [snd]; rewrite ensure_index_exists_run; cbn [pinecone];
    rewrite ?lookup_insert_eq, ?Hlook, ?Hdim; reflexivity.
Qed.

(** *** Clearing the index *)

Lemma delete_all_documents_run (E : Env) (w : World) :
  delete_all_documents E w =
  match environ E !! lit "PINECONE_API_KEY" with
  | None =>
      (Ok false,
       mkWorld (pinecone w)
         (log w ++ [EvLog ERROR (lit "Error deleting documents: "
                                   ++ exc_msg (KeyError (lit "PINECONE_API_KEY")))]))
  | Some _ =>
      match environ E !! lit "INDEX_NAME" with
      | None =>
          (Ok false,
           mkWorld (pinecone w)
             (log w ++ [EvLog ERROR (lit "Error deleting documents: "
                                       ++ exc_msg (KeyError (lit "INDEX_NAME")))]))
      | Some name =>
          match pinecone w !! name with
          | None =>
              (Ok false,
               mkWorld (pinecone w)
                 (log w ++ [EvDeleteAll name;
                            EvLog ERROR (lit "Error deleting documents: "
                                           ++ exc_msg (NotFoundException name))]))
          | Some info =>
              (Ok true,
               mkWorld (<[name := mkIndexInfo (dimension info) (metric info) []]> (pinecone w))
                 (log w ++ [EvDeleteAll name]))
          end
      end
  end.
Proof.
  unfold delete_all_documents, pc_delete_all, environ_get.
  destruct (environ E !! lit "PINECONE_API_KEY"); run; [|done].
  destruct (environ E !! lit "INDEX_NAME") as [name|]; run; [|done].
  destruct (pinecone w !! name); run; [done|]. by rewrite <- app_assoc.
Qed.

(** [delete_all_documents] never raises, and it returns [True] exactly when
    both environment variables are set and the named index exists. *)
Theorem delete_all_documents_true_iff (E : Env) (w : World) :
  ∃ cleared w',
    delete_all_documents E w = (Ok cleared, w') ∧
    (cleared = true ↔
       is_Some (environ E !! lit "PINECONE_API_KEY") ∧
       ∃ name, environ E !! lit "INDEX_NAME" = Some name ∧ is_Some (pinecone w !! name)).
Proof.
  rewrite delete_all_documents_run.
  destruct (environ E !! lit "PINECONE_API_KEY") as [key|];
    [destruct (environ E !! lit "INDEX_NAME") as [name|];
       [destruct (pinecone w !! name) as [info|] eqn:Hlook|]|];
    eexists _, _; (split; [reflexivity|]); split; try done.
  - intros _. split; [by eexists|]. exists name. split; [done|]. rewrite Hlook. by eexists.
  - intros [_ (name' & [= <-] & Hsome)]. rewrite Hlook in Hsome. by destruct Hsome.
  - by intros [_ (name' & [=] & _)].
  - by intros [[? [=]] _].
Qed.

(** When [delete_all_documents] returns [True] it has emptied the records of
    the index named by [INDEX_NAME] and nothing else: the index keeps its
    dimension and metric, the other indexes are as before, and the only call
    made is the bulk delete. *)
Theorem delete_all_documents_clears_only_records (E : Env) (w w' : World) :
  delete_all_documents E w = (Ok true, w') →
  ∃ name info,
    environ E !! lit "INDEX_NAME" = Some name ∧
    pinecone w !! name = Some info ∧
    pinecone w' = <[name := mkIndexInfo (dimension info) (metric info) []]> (pinecone w) ∧
    log w' = log w ++ [EvDeleteAll name].
Proof.
  rewrite delete_all_documents_run. intros H.
  destruct (environ E !! lit "PINECONE_API_KEY") as [key|]; [|done].
  destruct (environ E !! lit "INDEX_NAME") as [name|]; [|done].
  destruct (pinecone w !! name) as [info|] eqn:Hlook; [|done].
  injection H as <-. by exists name, info.
Qed.

Lemma delete_all_documents_clears_only_records_witness :
  ∃ name info,
    environ demo_env !! lit "INDEX_NAME" = Some name ∧
    pinecone demo_world !! name = Some info ∧
    pinecone (mkWorld {[ lit "resumes" := mkIndexInfo 1536 (lit "cosine") [] ]}
                [EvDeleteAll (lit "resumes")])
      = <[name := mkIndexInfo (dimension info) (metric info) []]> (pinecone demo_world) ∧
    log (mkWorld {[ lit "resumes" := mkIndexInfo 1536 (lit "cosine") [] ]}
           [EvDeleteAll (lit "resumes")])
      = log demo_world ++ [EvDeleteAll name].
Proof.
  apply (delete_all_documents_clears_only_records demo_env demo_world).
  vm_compute. reflexivity.
Defined.

(** When [delete_all_documents] returns [False] no index has changed and the
    last thing it did was to log the error. *)
Theorem delete_all_documents_failure_is_logged (E : Env) (w w' : World) :
  delete_all_documents E w = (Ok false, w') →
  pinecone w' = pinecone w ∧
  ∃ e, last (log w') = Some (EvLog ERROR (lit "Error deleting documents: " ++ exc_msg e)).
Proof.
  rewrite delete_all_documents_run. intros H.
  destruct (environ E !! lit "PINECONE_API_KEY") as [key|];
    [destruct (environ E !! lit "INDEX_NAME") as [name|];
       [destruct (pinecone w !! name) as [info|]|]|];
    [done| | |]; injection H as <-; (split; [done|]); cbn [log].
  - exists (NotFoundException name). by rewrite last_app.
  - exists (KeyError (lit "INDEX_NAME")). by rewrite last_app.
  - exists (KeyError (lit "PINECONE_API_KEY")). by rewrite last_app.
Qed.

Lemma delete_all_documents_failure_is_logged_witness :
  pinecone (delete_all_documents demo_env empty_world).2 = pinecone empty_world ∧
  ∃ e, last (log (delete_all_documents demo_env empty_world).2)
       = Some (EvLog ERROR (lit "Error deleting documents: " ++ exc_msg e)).
Proof.
  apply (delete_all_documents_failure_is_logged demo_env empty_world).
  vm_compute. reflexivity.
Defined.

(** *** Opening the store *)

(** [get_vector_store] never raises and never changes an index; it returns a
    store exactly when [INDEX_NAME] is set and the service has an index of
    that name, and the store is the handle on that name. *)
Theorem get_vector_store_some_iff (E : Env) (w : World) :
  ∃ r w',
    get_vector_store E w = (Ok r, w') ∧
    pinecone w' = pinecone w ∧
    (∀ vs, r = Some vs ↔
       environ E !! lit "INDEX_NAME" = Some (vs_index_name vs) ∧
       is_Some (pinecone w !! vs_index_name vs)).
Proof.
  rewrite get_vector_store_run.
  destruct (environ E !! lit "INDEX_NAME") as [name|];
    [destruct (pinecone w !! name) as [info|] eqn:Hlook|];
    eexists _, _; (split; [reflexivity|]); (split; [done|]); intros [name']; cbn.
  - split.
    + intros [= <-]. split; [done|]. rewrite Hlook. by eexists.
    + by intros [[= <-] _].
  - split; [done|]. intros [[= <-] Hsome]. rewrite Hlook in Hsome. by destruct Hsome.
  - split; [done|]. by intros [[=] _].
Qed.

(** *** Creating the vector store: the three outcomes *)

Lemma from_documents_run (E : Env) (chunks : list Document) (name : pystr) (w : World) :
  from_documents E chunks name w =
  match embed_documents E (map page_content chunks) with
  | Raise e =>
      (Raise e, mkWorld (pinecone w) (log w ++ [EvEmbed (map page_content chunks)]))
  | Ok vectors =>
      let recs := zip_with mkIndexRecord vectors chunks in
      let log' := log w ++ [EvEmbed (map page_content chunks); EvUpsert name (length recs)] in
      match pinecone w !! name with
      | None => (Raise (NotFoundException name), mkWorld (pinecone w) log')
      | Some info =>
          if forallb (λ r, Z.of_nat (length (rec_values r)) =? dimension info)%Z recs then
            (Ok (mkVectorStore name),
             mkWorld (<[name := mkIndexInfo (dimension info) (metric info)
                                  (records info ++ recs)]> (pinecone w)) log')
          else
            (Raise (BadRequestException
                      (lit "Vector dimension does not match the dimension of the index")),
             mkWorld (pinecone w) log')
      end
  end.
Proof.
  unfold from_documents, pc_upsert, lift. run.
  destruct (embed_documents E (map page_content chunks)) as [vectors|e]; run; [|done].
  cbn zeta. destruct (pinecone w !! name) as [info|]; run.
  - destruct (forallb _ _); run; by rewrite <- app_assoc.
  - by rewrite <- app_assoc.
Qed.

Lemma zip_with_records_dimension (vectors : list (list Q)) (chunks : list Document) :
  Forall (λ v, length v = 1536%nat) vectors →
  forallb (λ r, Z.of_nat (length (rec_values r)) =? 1536)%Z
    (zip_with mkIndexRecord vectors chunks) = true.
Proof.
  intros Hall. revert chunks. induction Hall as [|v vectors Hv _ IH]; intros chunks.
  - reflexivity.
  - destruct chunks as [|c chunks]; [reflexivity|].
    cbn [zip_with forallb rec_values]. rewrite Hv, IH. reflexivity.
Qed.

(** The index after [_ensure_index_exists]: dimension 1536 and the records
    that were kept. *)
Lemma ensure_index_exists_kept (name : pystr) (w : World) :
  ∃ w1 info1,
    _ensure_index_exists name w = (Ok tt, w1) ∧
    pinecone w1 !! name = Some info1 ∧
    dimension info1 = 1536%Z ∧
    records info1 = kept_records w name ∧
    pinecone w1 = <[name := info1]> (pinecone w).
Proof.
  rewrite ensure_index_exists_run. unfold kept_records.
  destruct (pinecone w !! name) as [info|] eqn:Hlook.
  - destruct (decide (dimension info = 1536%Z)) as [Hdim|Hdim].
    + rewrite bool_decide_eq_false_2 by (by intros H).
      rewrite (bool_decide_eq_true_2 _ Hdim).
      eexists _, info. split; [reflexivity|]. cbn [pinecone].
      by rewrite insert_id.
    + rewrite (bool_decide_eq_true_2 _ Hdim), (bool_decide_eq_false_2 _ Hdim).
      eexists _, _. split; [reflexivity|]. cbn [pinecone].
      by rewrite lookup_insert_eq.
  - eexists _, _. split; [reflexivity|]. cbn [pinecone].
    by rewrite lookup_insert_eq.
Qed.

Lemma zip_with_records_chunks (vectors : list (list Q)) (chunks : list Document) :
  length vectors = length chunks →
  map rec_doc (zip_with mkIndexRecord vectors chunks) = chunks ∧
  map rec_values (zip_with mkIndexRecord vectors chunks) = vectors.
Proof.
  revert chunks. induction vectors as [|v vectors IH]; intros [|c chunks] Hlen;
    try done.
  injection Hlen as Hlen. destruct (IH chunks Hlen) as [Hd Hv].
  cbn [zip_with map rec_doc rec_values]. by rewrite Hd, Hv.
Qed.

(** With both environment variables set and an Embedding Provider that
    returns one vector of length 1536 per chunk, [create_vector_store] on a
    non-empty list returns the handle on the index named by [INDEX_NAME];
    that index then has dimension 1536 and holds the records that
    [_ensure_index_exists] kept followed by exactly one new record per chunk:
    the new records carry the chunks, in order, each with its vector; the
    other indexes are as before. *)
Theorem create_vector_store_appends_chunks
    (E : Env) (documents : list Document) (w : World) (key name : pystr)
    (vectors : list (list Q)) :
  documents ≠ [] →
  environ E !! lit "PINECONE_API_KEY" = Some key →
  environ E !! lit "INDEX_NAME" = Some name →
  embed_documents E (map page_content (split_documents E documents)) = Ok vectors →
  length vectors = length (split_documents E documents) →
  Forall (λ v, length v = 1536%nat) vectors →
  ∃ w' info' new_records,
    create_vector_store E documents w = (Ok (Some (mkVectorStore name)), w') ∧
    pinecone w' !! name = Some info' ∧
    dimension info' = 1536%Z ∧
    records info' = kept_records w name ++ new_records ∧
    length new_records = length (split_documents E documents) ∧
    map rec_doc new_records = split_documents E documents ∧
    map rec_values new_records = vectors ∧
    (∀ other, other ≠ name → pinecone w' !! other = pinecone w !! other).
Proof.
  intros Hne Hkey Hname Hembed Hlen Hdim.
  destruct documents as [|d documents]; [done|].
  destruct (ensure_index_exists_kept name w)
    as (w1 & info1 & Hensure & Hlook1 & Hdim1 & Hrec1 & Hidx1).
  destruct (zip_with_records_chunks vectors _ Hlen) as [Hdocs Hvalues].
  cbn [create_vector_store]. unfold try_except, environ_get.
  rewrite Hkey, Hname. unfold mbind at 1 2 3, M_bind at 1 2 3.
  unfold mret at 1 2, M_ret at 1 2. rewrite Hensure.
  unfold mbind at 1, M_bind at 1. rewrite from_documents_run, Hembed.
  cbn zeta. rewrite Hlook1, Hdim1, zip_with_records_dimension by done. run.
  eexists _, _, (zip_with mkIndexRecord vectors (split_documents E (d :: documents))).
  split; [reflexivity|]. cbn [pinecone].
  rewrite lookup_insert_eq. split; [reflexivity|]. cbn [dimension records].
  split; [done|]. split; [by rewrite Hrec1|].
  split; [by rewrite <- Hdocs at 2; rewrite length_map|].
  split; [done|]. split; [done|].
  intros other Hother. by rewrite lookup_insert_ne, Hidx1, lookup_insert_ne.
Qed.

Lemma create_vector_store_appends_chunks_witness :
  ∃ w' info' new_records,
    create_vector_store demo_env [skills_doc; long_doc] demo_world
      = (Ok (Some (mkVectorStore (lit "resumes"))), w') ∧
    pinecone w' !! lit "resumes" = Some info' ∧
    dimension info' = 1536%Z ∧
    records info' = kept_records demo_world (lit "resumes") ++ new_records ∧
    length new_records = length (split_documents demo_env [skills_doc; long_doc]) ∧
    map rec_doc new_records = split_documents demo_env [skills_doc; long_doc] ∧
    map rec_values new_records = [replicate 1536 0%Q; replicate 1536 0%Q] ∧
    (∀ other, other ≠ lit "resumes" →
       pinecone w' !! other = pinecone demo_world !! other).
Proof.
  apply (create_vector_store_appends_chunks demo_env [skills_doc; long_doc] demo_world
           (lit "pk") (lit "resumes") [replicate 1536 0%Q; replicate 1536 0%Q]).
  - discriminate.
  - vm_compute. reflexivity.
  - vm_compute. reflexivity.
  - vm_compute. reflexivity.
  - reflexivity.
  - repeat (constructor; [vm_compute; reflexivity|]). constructor.
Defined.

(** A failed creation can still destroy data: when the index exists with a
    dimension other than 1536 and the Embedding Provider then fails,
    [create_vector_store] returns [None], and the index has already been
    deleted and created again, empty. *)
Theorem create_vector_store_failure_after_rebuild
    (E : Env) (documents : list Document) (w : World) (key name : pystr)
    (info : IndexInfo) (e : Exc) :
  documents ≠ [] →
  environ E !! lit "PINECONE_API_KEY" = Some key →
  environ E !! lit "INDEX_NAME" = Some name →
  pinecone w !! name = Some info →
  dimension info ≠ 1536%Z →
  embed_documents E (map page_content (split_documents E documents)) = Raise e →
  ∃ w',
    create_vector_store E documents w = (Ok None, w') ∧
    pinecone w' !! name = Some (mkIndexInfo 1536 (lit "cosine") []) ∧
    last (log w') = Some (EvLog ERROR (lit "Error creating vector store: " ++ exc_msg e)).
Proof.
  intros Hne Hkey Hname Hlook Hdim Hembed.
  destruct documents as [|d documents]; [done|].
  cbn [create_vector_store]. unfold try_except, environ_get.
  rewrite Hkey, Hname. unfold mbind at 1 2 3, M_bind at 1 2 3.
  unfold mret at 1 2, M_ret at 1 2.
  rewrite ensure_index_exists_run, Hlook, (bool_decide_eq_true_2 _ Hdim).
  unfold mbind at 1, M_bind at 1. rewrite from_documents_run, Hembed. run.
  eexists. split; [reflexivity|]. cbn [pinecone log].
  by rewrite lookup_insert_eq, last_snoc.
Qed.

Lemma create_vector_store_failure_after_rebuild_witness :
  ∃ w',
    create_vector_store failing_embed_env [skills_doc] legacy_world = (Ok None, w') ∧
    pinecone w' !! lit "resumes" = Some (mkIndexInfo 1536 (lit "cosine") []) ∧
    last (log w')
      = Some (EvLog ERROR (lit "Error creating vector store: "
                             ++ exc_msg (mkExc (lit "RateLimitError") (lit "quota exceeded")))).
Proof.
  apply (create_vector_store_failure_after_rebuild failing_embed_env [skills_doc]
           legacy_world (lit "pk") (lit "resumes")
           (mkIndexInfo 768 (lit "cosine") [mkIndexRecord [] skills_doc])).
  - discriminate.
  - vm_compute. reflexivity.
  - vm_compute. reflexivity.
  - vm_compute. reflexivity.
  - cbn. lia.
  - reflexivity.
Defined.

(** Without [PINECONE_API_KEY] or [INDEX_NAME] in the environment,
    [create_vector_store] returns [None] after logging the missing key, and
    makes no call at all: the indexes are as before and the log has one more
    record. *)
Theorem create_vector_store_unconfigured
    (E : Env) (documents : list Document) (w : World) :
  documents ≠ [] →
  environ E !! lit "PINECONE_API_KEY" = None ∨ environ E !! lit "INDEX_NAME" = None →
  ∃ var,
    environ E !! var = None ∧
    create_vector_store E documents w =
    (Ok None,
     mkWorld (pinecone w)
       (log w ++ [EvLog ERROR (lit "Error creating vector store: "
                                 ++ exc_msg (KeyError var))])).
Proof.
  intros Hne Hmissing. destruct documents as [|d documents]; [done|].
  cbn [create_vector_store]. unfold try_except, environ_get.
  destruct (environ E !! lit "PINECONE_API_KEY") as [key|] eqn:Hkey.
  - destruct Hmissing as [?|Hname]; [done|].
    exists (lit "INDEX_NAME"). split; [done|]. rewrite Hname. by run.
  - exists (lit "PINECONE_API_KEY"). split; [done|]. by run.
Qed.

Lemma create_vector_store_unconfigured_witness :
  ∃ var,
    environ unconfigured_env !! var = None ∧
    create_vector_store unconfigured_env [skills_doc] demo_world =
    (Ok None,
     mkWorld (pinecone demo_world)
       (log demo_world ++ [EvLog ERROR (lit "Error creating vector store: "
                                          ++ exc_msg (KeyError var))])).
Proof.
  apply (create_vector_store_unconfigured unconfigured_env [skills_doc] demo_world).
  - discriminate.
  - left. vm_compute. reflexivity.
Defined.

(** *** Loading: the closed form and the effects *)

Lemma file_events_local (E : Env) (file_path : pystr) :
  Forall (λ ev, is_network_event ev = false) (file_events E file_path).
Proof.
  unfold file_events.
  destruct (loaders _) as [kind|]; [|by repeat constructor].
  destruct (loader_load E kind file_path); by repeat constructor.
Qed.

Lemma extend_from_patterns_run (E : Env) (path : pystr) (exts : list pystr)
    (documents : list Document) (w : World) :
  ∃ evs,
    extend_from_patterns E path exts documents w =
    (Ok (documents ++
         concat (map (file_docs E)
           (concat (map (λ ext, glob_glob E (os_path_join path [lit "**"; ext])) exts)))),
     mkWorld (pinecone w) (log w ++ evs)) ∧
    Forall (λ ev, is_network_event ev = false) evs.
Proof.
  revert documents w. induction exts as [|ext rest IH]; intros documents w.
  - exists []. cbn. rewrite !app_nil_r. by destruct w.
  - cbn [extend_from_patterns]. run. rewrite extend_from_files_run.
    cbn [pinecone log].
    destruct (IH (documents ++ concat (map (file_docs E)
                    (glob_glob E (os_path_join path [lit "**"; ext]))))
                 (mkWorld (pinecone w)
                    ((log w ++ [EvGlob (os_path_join path [lit "**"; ext])]) ++
                     concat (map (file_events E)
                       (glob_glob E (os_path_join path [lit "**"; ext]))))))
      as (evs & -> & Hevs).
    eexists. split.
    + cbn [map concat pinecone log]. rewrite map_app, concat_app, <- !app_assoc.
      reflexivity.
    + apply Forall_app. split; [by repeat constructor|].
      apply Forall_app. split; [|done].
      apply Forall_concat, Forall_fmap, Forall_forall. intros f _.
      apply file_events_local.
Qed.

(** [load_documents] returns, for every path, the documents of its closed
    form: those of the file when the path is a regular file (whatever its
    extension); for a directory those of the files matched under it, all
    [*.txt] files first, then all [*.pdf], then all [*.docx]; none otherwise.
    It changes no index and calls neither the Embedding Provider nor the
    Vector Index. *)
Theorem load_documents_closed_form (E : Env) (path : pystr) (w : World) :
  ∃ evs,
    load_documents E path w =
      (Ok (loaded_docs E path), mkWorld (pinecone w) (log w ++ evs)) ∧
    Forall (λ ev, is_network_event ev = false) evs.
Proof.
  unfold load_documents, loaded_docs. destruct (isfile E path).
  - unfold mbind, M_bind. rewrite load_single_file_run. eexists. split; [done|].
    apply file_events_local.
  - destruct (isdir E path).
    + destruct (extend_from_patterns_run E path [lit "*.txt"; lit "*.pdf"; lit "*.docx"] [] w)
        as (evs & -> & Hevs).
      exists evs. split; [|done]. cbn [map concat app]. by rewrite app_nil_r.
    + exists []. rewrite app_nil_r. by destruct w.
Qed.

(** *** Paths *)

Lemma rfind_from_spec (c : N) (s : pystr) (i acc : Z) :
  (rfind_from c s i acc = acc ∧ c ∉ s) ∨
  ∃ k : nat, rfind_from c s i acc = (i + Z.of_nat k)%Z ∧ s !! k = Some c ∧ c ∉ drop (S k) s.
Proof.
  revert i acc. induction s as [|x s IH]; intros i acc.
  - left. split; [done|]. apply not_elem_of_nil.
  - cbn [rfind_from].
    destruct (IH (i + 1)%Z (if (x =? c)%N then i else acc))
      as [[Hr Hnot]|(k & Hr & Hk & Hafter)].
    + rewrite Hr. destruct (N.eqb_spec x c) as [->|Hne].
      * right. exists 0%nat. split; [lia|]. split; [done|]. exact Hnot.
      * left. split; [done|]. rewrite not_elem_of_cons. split; [congruence|done].
    + right. exists (S k). split; [lia|]. done.
Qed.

Lemma rfind_spec (c : N) (s : pystr) :
  (rfind c s = (-1)%Z ∧ c ∉ s) ∨
  ∃ k : nat, rfind c s = Z.of_nat k ∧ s !! k = Some c ∧ c ∉ drop (S k) s.
Proof.
  unfold rfind. destruct (rfind_from_spec c s 0 (-1)) as [?|(k & Hr & ?)]; [by left|].
  right. exists k. by rewrite Hr.
Qed.

(** [os.path.splitext] loses nothing and cuts at a real extension: root and
    extension concatenate to the path, and the extension is either empty or
    a dot followed by characters among which there is no dot and no slash. *)
Theorem splitext_root_ext (p : pystr) :
  (splitext p).1 ++ (splitext p).2 = p ∧
  ((splitext p).2 = [] ∨
   ∃ rest, (splitext p).2 = (dot :: rest) ∧ (dot ∉ rest) ∧ (slash ∉ rest)).
Proof.
  unfold splitext.
  destruct (_ && _) eqn:Hcond; cbn [fst snd]; [|by rewrite app_nil_r; auto].
  split; [apply take_drop|]. right.
  apply andb_prop in Hcond as [Hlt _]. apply Z.ltb_lt in Hlt.
  destruct (rfind_spec dot p) as [[Hd _]|(kd & Hd & Hkd & Hafter)].
  { destruct (rfind_spec slash p) as [[Hs _]|(ks & Hs & _)]; lia. }
  rewrite Hd, Nat2Z.id. rewrite Hd in Hlt.
  rewrite (drop_S _ _ _ Hkd). exists (drop (S kd) p). split; [done|]. split; [done|].
  destruct (rfind_spec slash p) as [[_ Hnot]|(ks & Hs & _ & Hnot)].
  - intros Hin. apply Hnot. by apply (subseteq_drop (S kd) p).
  - intros Hin. apply Hnot. rewrite Hs in Hlt.
    replace (S kd) with (S ks + (S kd - S ks))%nat in Hin by lia.
    rewrite <- drop_drop in Hin. by apply (subseteq_drop _ _ _ Hin).
Qed.

(** *** Stripping white space *)

Lemma lstrip_split (s : pystr) :
  ∃ a, s = a ++ lstrip s ∧ Forall is_space_char a ∧
       ∀ c, head (lstrip s) = Some c → is_space c = false.
Proof.
  induction s as [|x s (a & Hs & Ha & Hhead)].
  - exists []. by repeat split.
  - cbn [lstrip]. destruct (is_space x) eqn:Hx.
    + exists (x :: a). split; [by rewrite Hs at 1|]. split; [by constructor|done].
    + exists []. split; [done|]. split; [constructor|]. by intros c [= <-].
Qed.

(** [strip] removes white space from both ends and nothing else: the string
    is a run of white space, the stripped string, and a run of white space;
    the stripped string neither starts nor ends with white space; and it is
    empty exactly when every character of the string is white space. *)
Theorem strip_removes_surrounding_space (s : pystr) :
  (∃ a b,
     s = a ++ strip s ++ b ∧
     Forall is_space_char a ∧ Forall is_space_char b) ∧
  (∀ c, head (strip s) = Some c → is_space c = false) ∧
  (∀ c, last (strip s) = Some c → is_space c = false) ∧
  (strip s = [] ↔ Forall is_space_char s).
Proof.
  unfold strip.
  destruct (lstrip_split s) as (a & Hs & Ha & Hhead).
  destruct (lstrip_split (reverse (lstrip s))) as (b & Ht & Hb & Hlast).
  set (u := lstrip (reverse (lstrip s))) in *.
  assert (Hts : lstrip s = reverse u ++ reverse b).
  { rewrite <- reverse_app, <- Ht. by rewrite reverse_involutive. }
  assert (Hfirst : ∀ c, head (reverse u) = Some c → is_space c = false).
  { intros c Hc. apply Hhead. rewrite Hts. destruct (reverse u); [done|]. exact Hc. }
  split; [|split; [done|split]].
  - exists a, (reverse b). split; [by rewrite <- Hts|]. split; [done|].
    by apply Forall_reverse.
  - intros c Hc. apply Hlast. by rewrite <- last_reverse.
  - split.
    + intros Hnil. rewrite Hs, Hts, Hnil. apply Forall_app. split; [done|].
      by apply Forall_reverse.
    + intros Hall. destruct (reverse u) as [|c t] eqn:Hu; [done|].
      rewrite Hs, Hts in Hall. apply Forall_app in Hall as [_ Hall].
      apply Forall_app in Hall as [Hall _]. apply Forall_cons in Hall as [Hc _].
      specialize (Hfirst c eq_refl). unfold is_space_char in Hc. congruence.
Qed.

(** *** The context block of two result sets *)

(** Formatting is compositional: the context of two non-empty result sets
    put end to end is the two contexts separated by a blank line. *)
Theorem format_docs_app (docs1 docs2 : list Document) :
  docs1 ≠ [] → docs2 ≠ [] →
  _format_docs (docs1 ++ docs2) = _format_docs docs1 ++ NL ++ NL ++ _format_docs docs2.
Proof.
  intros H1 H2.
  destruct docs1 as [|d1 docs1]; [done|]. destruct docs2 as [|d2 docs2]; [done|].
  unfold _format_docs, py_join. rewrite !map_app. cbn [map app].
  rewrite fold_left_app. cbn [fold_left]. rewrite !fold_left_join_acc.
  by rewrite <- !app_assoc.
Qed.

Lemma format_docs_app_witness :
  _format_docs ([skills_doc] ++ [long_doc; skills_doc])
  = _format_docs [skills_doc] ++ NL ++ NL ++ _format_docs [long_doc; skills_doc].
Proof. apply (format_docs_app [skills_doc] [long_doc; skills_doc]); discriminate. Defined.

(** *** The query operation: every outcome *)

Lemma process_chat_question_run (E : Env) (q : pystr) (vs : VectorStore) (w : World) :
  process_chat_question E q (Some vs) w =
  let search := EvSearch (vs_index_name vs) q 5 in
  match (retriever_invoke E (as_retriever vs 5) q w).1 with
  | Raise e => (Raise e, mkWorld (pinecone w) (log w ++ [search]))
  | Ok docs =>
      let prompt := HR_PROMPT (_format_docs docs) q in
      match llm_invoke E prompt with
      | Raise e => (Raise e, mkWorld (pinecone w) (log w ++ [search; EvLLM prompt]))
      | Ok md =>
          match (retriever_invoke E (as_retriever vs 5) q
                   (mkWorld (pinecone w) (log w ++ [search; EvLLM prompt]))).1 with
          | Raise e =>
              (Raise e, mkWorld (pinecone w) (log w ++ [search; EvLLM prompt; search]))
          | Ok source_docs =>
              (Ok (mkChatResult (markdown E md) (map source_of source_docs)),
               mkWorld (pinecone w) (log w ++ [search; EvLLM prompt; search]))
          end
      end
  end.
Proof.
  cbn zeta. unfold process_chat_question, get_relevant_documents.
  unfold mbind at 1, M_bind at 1.
  pose proof (retriever_invoke_world E (as_retriever vs 5) q w) as Hw1.
  destruct (retriever_invoke E (as_retriever vs 5) q w) as [r1 w1].
  cbn [fst snd retr_store retr_k as_retriever] in *. subst w1.
  destruct r1 as [docs|e]; [|done].
  unfold mbind at 1, M_bind at 1. rewrite llm_call_run. cbn [pinecone log].
  rewrite <- app_assoc. cbn [app].
  destruct (llm_invoke E (HR_PROMPT (_format_docs docs) q)) as [md|e]; [|done].
  unfold mbind, M_bind.
  pose proof (retriever_invoke_world E (as_retriever vs 5) q
    (mkWorld (pinecone w)
       (log w ++ [EvSearch (vs_index_name vs) q 5;
                  EvLLM (HR_PROMPT (_format_docs docs) q)]))) as Hw2.
  destruct (retriever_invoke E (as_retriever vs 5) q _) as [r2 w2].
  cbn [fst snd retr_store retr_k as_retriever pinecone log] in *. subst w2.
  rewrite <- app_assoc. cbn [app].
  by destruct r2.
Qed.

(** Whatever its outcome, [process_chat_question] leaves every index as it
    was, and all it does outside the process is search and call the model:
    at most two searches and at most one model call, and no write, delete
    or create. *)
Theorem process_chat_question_only_reads
    (E : Env) (q : pystr) (vectorstore : option VectorStore) (w : World) :
  let w' := (process_chat_question E q vectorstore w).2 in
  pinecone w' = pinecone w ∧
  ∃ evs,
    log w' = log w ++ evs ∧
    Forall (λ ev, is_search_event ev = true ∨ is_llm_event ev = true) evs ∧
    (length (filter is_search_event evs) ≤ 2)%nat ∧
    (length (filter is_llm_event evs) ≤ 1)%nat.
Proof.
  destruct vectorstore as [vs|].
  2:{ cbn. split; [done|]. exists []. rewrite app_nil_r.
      split; [done|]. split; [constructor|]. cbn. lia. }
  assert (Hfin : ∀ evs : list Event,
    (evs = [EvSearch (vs_index_name vs) q 5] ∨
     (∃ p, evs = [EvSearch (vs_index_name vs) q 5; EvLLM p]) ∨
     (∃ p, evs = [EvSearch (vs_index_name vs) q 5; EvLLM p;
                  EvSearch (vs_index_name vs) q 5])) →
    Forall (λ ev, is_search_event ev = true ∨ is_llm_event ev = true) evs ∧
    (length (filter is_search_event evs) ≤ 2)%nat ∧
    (length (filter is_llm_event evs) ≤ 1)%nat).
  { intros evs [->|[[p ->]|[p ->]]]; (split; [|split; cbv; lia]);
      repeat (apply Forall_cons; split; [by (left + right)|]); constructor. }
  rewrite process_chat_question_run. cbn zeta.
  destruct (retriever_invoke E (as_retriever vs 5) q w).1 as [docs|e].
  - destruct (llm_invoke E _) as [md|e].
    + destruct (retriever_invoke E (as_retriever vs 5) q _).1;
        (split; [done|]); eexists; (split; [reflexivity|]); apply Hfin; eauto.
    + split; [done|]. eexists. split; [reflexivity|]. apply Hfin; eauto.
  - split; [done|]. eexists. split; [reflexivity|]. apply Hfin; eauto.
Qed.

(** When the retrieval for the context fails, the failure is raised at once:
    the model is not called and no second search is made. *)
Theorem retrieval_failure_skips_the_model
    (E : Env) (q : pystr) (vs : VectorStore) (w : World) (e : Exc) :
  (retriever_invoke E (as_retriever vs 5) q w).1 = Raise e →
  process_chat_question E q (Some vs) w =
  (Raise e, mkWorld (pinecone w) (log w ++ [EvSearch (vs_index_name vs) q 5])).
Proof. intros H. by rewrite process_chat_question_run, H. Qed.

(** The index was deleted after the store was opened. *)
Lemma retrieval_failure_skips_the_model_witness :
  process_chat_question demo_env (lit "Who knows React?") (Some demo_store) empty_world =
  (Raise (NotFoundException (lit "resumes")),
   mkWorld (pinecone empty_world)
     (log empty_world ++ [EvSearch (vs_index_name demo_store) (lit "Who knows React?") 5])).
Proof.
  apply (retrieval_failure_skips_the_model demo_env (lit "Who knows React?")
           demo_store empty_world).
  vm_compute. reflexivity.
Defined.

(** When the model has answered and the retrieval for the sources then
    fails, the query fails with that error: the answer already generated is
    not returned. *)
Theorem sources_failure_discards_the_answer
    (E : Env) (q : pystr) (vs : VectorStore) (w : World) (docs : list Document)
    (md : pystr) (e : Exc) :
  (retriever_invoke E (as_retriever vs 5) q w).1 = Ok docs →
  llm_invoke E (HR_PROMPT (_format_docs docs) q) = Ok md →
  (retriever_invoke E (as_retriever vs 5) q
     (mkWorld (pinecone w)
        (log w ++ [EvSearch (vs_index_name vs) q 5;
                   EvLLM (HR_PROMPT (_format_docs docs) q)]))).1 = Raise e →
  process_chat_question E q (Some vs) w =
  (Raise e,
   mkWorld (pinecone w)
     (log w ++ [EvSearch (vs_index_name vs) q 5;
                EvLLM (HR_PROMPT (_format_docs docs) q);
                EvSearch (vs_index_name vs) q 5])).
Proof.
  intros Hdocs Hllm Hsrc. rewrite process_chat_question_run, Hdocs. cbn zeta.
  by rewrite Hllm, Hsrc.
Qed.

Lemma sources_failure_discards_the_answer_witness :
  let E := demo_env_with expiring_search demo_llm in
  let q := lit "Who knows React?" in
  process_chat_question E q (Some demo_store) demo_world =
  (Raise (mkExc (lit "ServiceException") (lit "(503) Service Unavailable")),
   mkWorld (pinecone demo_world)
     (log demo_world ++
        [EvSearch (vs_index_name demo_store) q 5;
         EvLLM (HR_PROMPT (_format_docs [skills_doc; long_doc]) q);
         EvSearch (vs_index_name demo_store) q 5])).
Proof.
  intros E q.
  apply (sources_failure_discards_the_answer E q demo_store demo_world
           [skills_doc; long_doc] (lit "## Skills Assessment")).
  - vm_compute. reflexivity.
  - reflexivity.
  - vm_compute. reflexivity.
Defined.

(** *** The [/chat] view: every request *)

Lemma strip_blank (s : pystr) : Forall is_space_char s → strip s = [].
Proof.
  intros Hall. unfold strip.
  assert (Hl : lstrip s = []).
  { induction Hall as [|c s Hc _ IH]; [done|]. cbn [lstrip].
    unfold is_space_char in Hc. by rewrite Hc. }
  by rewrite Hl.
Qed.

(** A request without a question, or whose question is made of white space
    only, is answered 400 "No question provided" and nothing else happens:
    the store is not opened and nothing is logged. *)
Theorem chat_blank_question (E : Env) (fields : gmap pystr JsonValue) (w : World) :
  fields !! lit "question" = None ∨
  (∃ s, fields !! lit "question" = Some (JString s) ∧ Forall is_space_char s) →
  chat E (JsonObject fields) w = (Ok (ErrorJson (lit "No question provided"), 400%Z), w).
Proof.
  intros [Hq|(s & Hq & Hs)]; unfold chat, request_question; run; rewrite Hq;
    cbn [from_option]; unfold id; run; rewrite ?(strip_blank s Hs); reflexivity.
Qed.

Lemma chat_blank_question_witness :
  chat demo_env (JsonObject {[ lit "question" := JString (lit "   ") ]}) demo_world
  = (Ok (ErrorJson (lit "No question provided"), 400%Z), demo_world).
Proof.
  apply (chat_blank_question demo_env {[ lit "question" := JString (lit "   ") ]} demo_world).
  right. exists (lit "   "). split; [vm_compute; reflexivity|].
  repeat constructor.
Defined.

(** A request whose JSON body cannot be read, or whose question is not a
    string, is answered 500 with the message of the error, after one log
    record and without any external call. *)
Theorem chat_malformed_request (E : Env) (w : World) :
  (∀ e,
     chat E (JsonFailure e) w =
     (Ok (ErrorJson (lit "Error: " ++ exc_msg e), 500%Z),
      mkWorld (pinecone w) (log w ++ [EvLog ERROR (lit "Chat error: " ++ exc_msg e)]))) ∧
  (∀ fields type_name,
     fields !! lit "question" = Some (JOther type_name) →
     chat E (JsonObject fields) w =
     (Ok (ErrorJson (lit "Error: '" ++ type_name ++ lit "' object has no attribute 'strip'"),
          500%Z),
      mkWorld (pinecone w)
        (log w ++ [EvLog ERROR (lit "Chat error: '" ++ type_name
                                  ++ lit "' object has no attribute 'strip'")]))).
Proof.
  split.
  - intros e. unfold chat, request_question. by run.
  - intros fields type_name Hq. unfold chat, request_question. run. rewrite Hq.
    cbn [from_option]. unfold id. by run.
Qed.

Lemma process_chat_question_frame (E : Env) (q : pystr) (vs : VectorStore) (w : World) :
  pinecone (process_chat_question E q (Some vs) w).2 = pinecone w.
Proof.
  rewrite process_chat_question_run. cbn zeta.
  destruct (retriever_invoke E (as_retriever vs 5) q w).1 as [docs|e]; [|done].
  destruct (llm_invoke E _) as [md|e]; [|done].
  by destruct (retriever_invoke E (as_retriever vs 5) q _).1.
Qed.

(** The [/chat] view never raises and never changes an index.  Its response
    is an answer with status 200, or an error message with status 400 or
    500. *)
Theorem chat_always_responds (E : Env) (request_json : RequestJson) (w : World) :
  ∃ body status w',
    chat E request_json w = (Ok (body, status), w') ∧
    pinecone w' = pinecone w ∧
    ((status = 200%Z ∧ ∃ response, body = ChatJson response) ∨
     ((status = 400%Z ∨ status = 500%Z) ∧ ∃ error, body = ErrorJson error)).
Proof.
  destruct request_json as [fields|e].
  2:{ eexists _, _, _. split; [unfold chat, request_question; by run|].
      split; [done|]. right. eauto. }
  destruct (fields !! lit "question") as [[s|type_name]|] eqn:Hq.
  - destruct (strip s) as [|c t] eqn:Hs.
    + eexists _, _, _. split.
      { unfold chat, request_question. run. rewrite Hq. cbn [from_option].
        unfold id. run. rewrite Hs. reflexivity. }
      split; [done|]. right. eauto.
    + destruct (get_vector_store E w) as [[vectorstore|e] w1] eqn:Hstore.
      2:{ rewrite get_vector_store_run in Hstore.
          destruct (environ E !! lit "INDEX_NAME") as [name|];
            [destruct (pinecone w !! name)|]; done. }
      destruct (get_vector_store_world E w w1 _ Hstore) as [Hidx _].
      assert (Hne : strip s ≠ []) by (by rewrite Hs).
      rewrite (chat_run E fields s w w1 vectorstore Hq Hne Hstore).
      destruct vectorstore as [vs|].
      * pose proof (process_chat_question_frame E (strip s) vs w1) as Hframe.
        destruct (process_chat_question E (strip s) (Some vs) w1) as [[response|e] w2];
          cbn [snd] in Hframe; eexists _, _, _; (split; [done|]); cbn [pinecone];
          (split; [congruence|]); [left|right]; eauto.
      * eexists _, _, _. split; [done|]. split; [done|]. right. eauto.
  - eexists _, _, _. split.
    { unfold chat, request_question. run. rewrite Hq. cbn [from_option].
      unfold id. by run. }
    split; [done|]. right. eauto.
  - eexists _, _, _. split.
    { unfold chat, request_question. run. rewrite Hq. cbn [from_option].
      unfold id. by run. }
    split; [done|]. right. eauto.
Qed.

(** An answered question, end to end: with the index in place, a search that
    returns [pairs] and a model that returns [md], the view responds 200
    with the rendered answer and one source per retrieved document; the
    question searched for and put in the prompt is the stripped one, and the
    calls are describe, search, model, search. *)
Theorem chat_answers_with_sources
    (E : Env) (fields : gmap pystr JsonValue) (s q name md : pystr) (w : World)
    (info : IndexInfo) (pairs : list (Document * Q)) :
  fields !! lit "question" = Some (JString s) →
  strip s = q → q ≠ [] →
  environ E !! lit "INDEX_NAME" = Some name →
  pinecone w !! name = Some info →
  (∀ t, similarity_search_with_score E t info q 5 = Ok pairs) →
  llm_invoke E (HR_PROMPT (_format_docs (map fst pairs)) q) = Ok md →
  chat E (JsonObject fields) w =
  (Ok (ChatJson (mkChatResult (markdown E md) (map source_of (map fst pairs))), 200%Z),
   mkWorld (pinecone w)
     (log w ++ [EvDescribeIndex name; EvSearch name q 5;
                EvLLM (HR_PROMPT (_format_docs (map fst pairs)) q);
                EvSearch name q 5])).
Proof.
  intros Hq Hs Hne Hname Hlook Hsearch Hllm. subst q.
  assert (Hstore : get_vector_store E w =
    (Ok (Some (mkVectorStore name)), mkWorld (pinecone w) (log w ++ [EvDescribeIndex name])))
    by (by rewrite get_vector_store_run, Hname, Hlook).
  rewrite (chat_run E fields s w _ _ Hq Hne Hstore), process_chat_question_run.
  cbn zeta. rewrite !retriever_invoke_run, !retriever_search_run.
  cbn [fst snd pinecone log vs_index_name retr_store retr_k as_retriever].
  rewrite Hlook, !Hsearch. cbn [result_map]. rewrite Hllm.
  rewrite retriever_invoke_run, retriever_search_run.
  cbn [fst snd pinecone log vs_index_name retr_store retr_k as_retriever].
  rewrite Hlook, Hsearch. cbn [result_map].
  by rewrite <- !app_assoc.
Qed.

Lemma chat_answers_with_sources_witness :
  let q := lit "Who knows React?" in
  let pairs := [(skills_doc, (1 # 1)%Q); (long_doc, (1 # 2)%Q)] in
  chat demo_env (JsonObject {[ lit "question" := JString (lit " Who knows React? ") ]})
    demo_world =
  (Ok (ChatJson (mkChatResult (markdown demo_env (lit "## Skills Assessment"))
                   (map source_of (map fst pairs))), 200%Z),
   mkWorld (pinecone demo_world)
     (log demo_world ++
        [EvDescribeIndex (lit "resumes"); EvSearch (lit "resumes") q 5;
         EvLLM (HR_PROMPT (_format_docs (map fst pairs)) q);
         EvSearch (lit "resumes") q 5])).
Proof.
  intros q pairs.
  apply (chat_answers_with_sources demo_env _ (lit " Who knows React? ") q (lit "resumes")
           (lit "## Skills Assessment") demo_world
           (mkIndexInfo 1536 (lit "cosine")
              [mkIndexRecord [] skills_doc; mkIndexRecord [] long_doc]) pairs).
  - vm_compute. reflexivity.
  - vm_compute. reflexivity.
  - discriminate.
  - vm_compute. reflexivity.
  - vm_compute. reflexivity.
  - intros t. reflexivity.
  - reflexivity.
Defined.

(** *** The [/update_vectorstore] view *)

Ltac run_session :=
  repeat progress
    (unfold mbind, MS_bind, mret, MS_ret, flash, in_world, try_except_session;
     cbn [sess_world sess_flashes fst snd]).

(** An empty or non-existent path is refused before anything is touched: one
    "Invalid path" error is flashed and the world, the index included, is as
    before. *)
Theorem update_vectorstore_invalid_path
    (E : Env) (os_path_exists : pystr → bool) (form : gmap pystr pystr) (s : Session) :
  requested_path E form = [] ∨ os_path_exists (requested_path E form) = false →
  update_vectorstore E os_path_exists form s =
  (Ok (RedirectTo (lit "index")),
   mkSession (sess_world s)
     (sess_flashes s ++
        [mkFlash (lit "Invalid path: " ++ requested_path E form) (lit "error")])).
Proof.
  intros Hbad. unfold update_vectorstore.
  assert (bool_decide (requested_path E form = [])
          || negb (os_path_exists (requested_path E form)) = true) as ->.
  { destruct Hbad as [->| ->]; [done|]. by rewrite orb_true_r. }
  by run_session.
Qed.

Lemma update_vectorstore_invalid_path_witness :
  update_vectorstore unconfigured_env (isdir demo_env) ∅ (mkSession demo_world []) =
  (Ok (RedirectTo (lit "index")),
   mkSession demo_world
     ([] ++ [mkFlash (lit "Invalid path: " ++ requested_path unconfigured_env ∅)
               (lit "error")])).
Proof.
  apply (update_vectorstore_invalid_path unconfigured_env (isdir demo_env) ∅
           (mkSession demo_world [])).
  left. vm_compute. reflexivity.
Defined.

Lemma load_documents_result (E : Env) (path : pystr) (w : World) :
  ∃ w', load_documents E path w = (Ok (loaded_docs E path), w') ∧ pinecone w' = pinecone w.
Proof.
  unfold load_documents, loaded_docs. destruct (isfile E path).
  - unfold mbind, M_bind. rewrite load_single_file_run. by eexists.
  - destruct (isdir E path).
    + destruct (extend_from_patterns_run E path [lit "*.txt"; lit "*.pdf"; lit "*.docx"] [] w)
        as (evs & -> & _).
      exists (mkWorld (pinecone w) (log w ++ evs)). split; [|done].
      cbn [map concat app]. by rewrite app_nil_r.
    + by exists w.
Qed.

Lemma create_vector_store_returns (E : Env) (documents : list Document) (w : World) :
  ∃ r w', create_vector_store E documents w = (Ok r, w').
Proof.
  destruct documents as [|d documents]; [by exists None, w|].
  cbn [create_vector_store]. apply try_except_returns.
  intros e w1. run. by eexists _, _.
Qed.

Lemma update_vectorstore_valid_run
    (E : Env) (os_path_exists : pystr → bool) (form : gmap pystr pystr) (s : Session)
    (cleared : bool) (w1 w2 : World) :
  requested_path E form ≠ [] →
  os_path_exists (requested_path E form) = true →
  delete_all_documents E (sess_world s) = (Ok cleared, w1) →
  load_documents E (requested_path E form) w1 = (Ok (loaded_docs E (requested_path E form)), w2) →
  update_vectorstore E os_path_exists form s =
  (Ok (RedirectTo (lit "index")),
   mkSession
     (match loaded_docs E (requested_path E form) with
      | [] => w2
      | documents => (create_vector_store E documents w2).2
      end)
     (sess_flashes s
      ++ (if cleared then [mkFlash (lit "Existing documents cleared.") (lit "info")] else [])
      ++ [update_flash E (requested_path E form) w2])).
Proof.
  intros Hne Hex Hdel Hload. unfold update_vectorstore, update_flash.
  rewrite (bool_decide_eq_false_2 _ Hne), Hex. cbn [orb negb].
  run_session. rewrite Hdel.
  destruct cleared; run_session; rewrite Hload;
    (destruct (loaded_docs E (requested_path E form)) as [|d documents];
     [run_session; cbn [app]; by rewrite <- ?app_assoc|]);
    run_session;
    destruct (create_vector_store_returns E (d :: documents) w2) as (r & w3 & ->);
    destruct r; run_session; cbn [app]; by rewrite <- ?app_assoc.
Qed.

(** On a valid path the old documents are cleared before the new ones are
    loaded: when the path then yields no document, the index named by
    [INDEX_NAME] is left empty and the user is told "Existing documents
    cleared." and "No documents found.". *)
Theorem update_vectorstore_clears_before_loading
    (E : Env) (os_path_exists : pystr → bool) (form : gmap pystr pystr) (s : Session)
    (key name : pystr) (info : IndexInfo) :
  requested_path E form ≠ [] →
  os_path_exists (requested_path E form) = true →
  environ E !! lit "PINECONE_API_KEY" = Some key →
  environ E !! lit "INDEX_NAME" = Some name →
  pinecone (sess_world s) !! name = Some info →
  loaded_docs E (requested_path E form) = [] →
  ∃ s',
    update_vectorstore E os_path_exists form s = (Ok (RedirectTo (lit "index")), s') ∧
    pinecone (sess_world s') =
      <[name := mkIndexInfo (dimension info) (metric info) []]> (pinecone (sess_world s)) ∧
    sess_flashes s' =
      sess_flashes s ++ [mkFlash (lit "Existing documents cleared.") (lit "info");
                         mkFlash (lit "No documents found.") (lit "warning")].
Proof.
  intros Hne Hex Hkey Hname Hlook Hdocs.
  pose proof (delete_all_documents_run E (sess_world s)) as Hdel.
  rewrite Hkey, Hname, Hlook in Hdel.
  destruct (load_documents_result E (requested_path E form)
              (mkWorld (<[name := mkIndexInfo (dimension info) (metric info) []]>
                          (pinecone (sess_world s)))
                 (log (sess_world s) ++ [EvDeleteAll name])))
    as (w2 & Hload & Hidx).
  rewrite (update_vectorstore_valid_run E os_path_exists form s _ _ _ Hne Hex Hdel Hload).
  unfold update_flash. rewrite Hdocs. eexists. split; [reflexivity|].
  cbn [sess_world sess_flashes]. by rewrite Hidx.
Qed.

Lemma update_vectorstore_clears_before_loading_witness :
  let form : gmap pystr pystr := {[ lit "file_path" := lit " notes.md " ]} in
  let s := mkSession demo_world [] in
  ∃ s',
    update_vectorstore demo_env (isfile demo_env) form s
      = (Ok (RedirectTo (lit "index")), s') ∧
    pinecone (sess_world s') =
      <[lit "resumes" := mkIndexInfo 1536 (lit "cosine") []]> (pinecone (sess_world s)) ∧
    sess_flashes s' =
      sess_flashes s ++ [mkFlash (lit "Existing documents cleared.") (lit "info");
                         mkFlash (lit "No documents found.") (lit "warning")].
Proof.
  intros form s.
  apply (update_vectorstore_clears_before_loading demo_env (isfile demo_env) form s
           (lit "pk") (lit "resumes")
           (mkIndexInfo 1536 (lit "cosine")
              [mkIndexRecord [] skills_doc; mkIndexRecord [] long_doc])).
  - vm_compute. discriminate.
  - vm_compute. reflexivity.
  - vm_compute. reflexivity.
  - vm_compute. reflexivity.
  - vm_compute. reflexivity.
  - vm_compute. reflexivity.
Defined.

(** On a valid path the view never raises and always ends with exactly one
    verdict as its last flash: "No documents found." when the path yields no
    document, the success message with the number of documents loaded (not
    of chunks) when the store was created, and "Error creating vector
    store." otherwise; before it comes "Existing documents cleared." when
    the clearing succeeded, and nothing else. *)
Theorem update_vectorstore_verdict
    (E : Env) (os_path_exists : pystr → bool) (form : gmap pystr pystr) (s : Session) :
  requested_path E form ≠ [] →
  os_path_exists (requested_path E form) = true →
  ∃ s' w2 (cleared : bool),
    update_vectorstore E os_path_exists form s = (Ok (RedirectTo (lit "index")), s') ∧
    (delete_all_documents E (sess_world s)).1 = Ok cleared ∧
    (load_documents E (requested_path E form) (delete_all_documents E (sess_world s)).2).2 = w2 ∧
    sess_flashes s' =
      sess_flashes s
      ++ (if cleared then [mkFlash (lit "Existing documents cleared.") (lit "info")] else [])
      ++ [update_flash E (requested_path E form) w2].
Proof.
  intros Hne Hex.
  destruct (delete_all_documents E (sess_world s)) as [[cleared|e] w1] eqn:Hdel.
  2:{ rewrite delete_all_documents_run in Hdel.
      destruct (environ E !! lit "PINECONE_API_KEY");
        [destruct (environ E !! lit "INDEX_NAME") as [name|];
           [destruct (pinecone (sess_world s) !! name)|]|]; done. }
  destruct (load_documents_result E (requested_path E form) w1) as (w2 & Hload & _).
  rewrite (update_vectorstore_valid_run E os_path_exists form s _ _ _ Hne Hex Hdel Hload).
  eexists _, w2, cleared. split; [reflexivity|]. cbn [fst snd]. rewrite Hload.
  by cbn [snd sess_flashes].
Qed.

Lemma update_vectorstore_verdict_witness :
  let form : gmap pystr pystr := {[ lit "file_path" := lit "cv.txt" ]} in
  let s := mkSession demo_world [] in
  ∃ s' w2 (cleared : bool),
    update_vectorstore demo_env (isfile demo_env) form s
      = (Ok (RedirectTo (lit "index")), s') ∧
    (delete_all_documents demo_env (sess_world s)).1 = Ok cleared ∧
    (load_documents demo_env (requested_path demo_env form)
       (delete_all_documents demo_env (sess_world s)).2).2 = w2 ∧
    sess_flashes s' =
      sess_flashes s
      ++ (if cleared then [mkFlash (lit "Existing documents cleared.") (lit "info")] else [])
      ++ [update_flash demo_env (requested_path demo_env form) w2].
Proof.
  intros form s.
  apply (update_vectorstore_verdict demo_env (isfile demo_env) form s).
  - vm_compute. discriminate.
  - vm_compute. reflexivity.
Defined.

Example update_vectorstore_one_file :
  (update_vectorstore demo_env (isfile demo_env) {[ lit "file_path" := lit "cv.txt" ]}
     (mkSession demo_world [])).1 = Ok (RedirectTo (lit "index")) ∧
  sess_flashes
    (update_vectorstore demo_env (isfile demo_env) {[ lit "file_path" := lit "cv.txt" ]}
       (mkSession demo_world [])).2 =
  [mkFlash (lit "Existing documents cleared.") (lit "info");
   mkFlash (lit "Successfully updated with 1 documents.") (lit "success")].
Proof. split; vm_compute; reflexivity. Qed.

(** *** The environment check of debug.py *)

Lemma masked_exposure (v1 v2 : pystr) :
  exposure v1 = exposure v2 → masked v1 = masked v2.
Proof.
  unfold exposure, masked.
  destruct (4 <? length v1)%nat, (4 <? length v2)%nat; intros Heq; try discriminate;
    injection Heq as H; by rewrite H.
Qed.

Lemma env_var_line_exposure (var : pystr) (o1 o2 : option pystr) :
  exposure <$> o1 = exposure <$> o2 → env_var_line var o1 = env_var_line var o2.
Proof.
  destruct o1 as [v1|], o2 as [v2|]; cbn [fmap option_fmap option_map];
    intros Heq; try discriminate; [|done].
  injection Heq as H.
  destruct v1 as [|c1 v1], v2 as [|c2 v2]; [done| | |].
  - exfalso. unfold exposure in H. cbn [length] in H.
    destruct (4 <? S (length v2))%nat; discriminate.
  - exfalso. unfold exposure in H. cbn [length] in H.
    destruct (4 <? S (length v1))%nat; discriminate.
  - unfold env_var_line. by rewrite (masked_exposure _ _ H).
Qed.

(** The environment check shows of each value only its last four characters,
    or only its length when it has at most four: two environments whose
    values agree on that print the same lines and return the same result. *)
Theorem test_environment_variables_exposure (E1 E2 : Env) :
  (∀ var, exposure <$> (environ E1 !! var) = exposure <$> (environ E2 !! var)) →
  test_environment_variables E1 = test_environment_variables E2.
Proof.
  intros Hsame. unfold test_environment_variables. cbn [map forallb fst snd].
  assert (Htruthy : ∀ var, truthy (environ E1 !! var) = truthy (environ E2 !! var)).
  { intros var. specialize (Hsame var).
    destruct (environ E1 !! var) as [[|c1 v1]|], (environ E2 !! var) as [[|c2 v2]|];
      cbn in *; try done; unfold exposure in Hsame; cbn [length] in Hsame;
      repeat case_match; simplify_eq. }
  rewrite !(env_var_line_exposure _ _ _ (Hsame _)), !Htruthy. reflexivity.
Qed.

Lemma test_environment_variables_exposure_witness :
  test_environment_variables demo_env =
  test_environment_variables
    (mkEnv {[ lit "INDEX_NAME" := lit "costumes"; lit "PINECONE_API_KEY" := lit "zz" ]}
       (isfile demo_env) (isdir demo_env) (glob_glob demo_env) (loader_load demo_env)
       (str_lower demo_env) (split_documents demo_env) (embed_documents demo_env)
       demo_search demo_llm (markdown demo_env)).
Proof.
  apply test_environment_variables_exposure.
  intros var.
  destruct (decide (var = lit "INDEX_NAME")) as [->|H1]; [vm_compute; reflexivity|].
  destruct (decide (var = lit "PINECONE_API_KEY")) as [->|H2]; [vm_compute; reflexivity|].
  cbn [environ demo_env demo_env_with].
  by rewrite !lookup_insert_ne, !lookup_singleton_ne.
Defined.

(** The check passes exactly when the four variables are all set to a
    non-empty value (an empty value counts as not set), and it always prints
    the heading and one line per variable. *)
Theorem test_environment_variables_passes_iff (E : Env) :
  ((test_environment_variables E).2 = true ↔
   Forall (λ var, ∃ c v, environ E !! var = Some (c :: v))
     [lit "OPENAI_API_KEY"; lit "PINECONE_API_KEY"; lit "INDEX_NAME";
      lit "LANGCHAIN_API_KEY"]) ∧
  length (test_environment_variables E).1 = 5%nat.
Proof.
  split; [|reflexivity].
  unfold test_environment_variables. cbn [snd map forallb fst].
  rewrite !andb_true_iff, !Forall_cons, Forall_nil.
  assert (Ht : ∀ o, truthy o = true ↔ ∃ c v, o = Some (c :: v)).
  { intros [[|c v]|]; cbn; split; try done; try (by intros (? & ? & [=])); eauto. }
  rewrite !Ht. tauto.
Qed.
